(** * sched: schedule grammar and next-occurrence resolver

    A shallow embedding of the job-descriptor parser of the [sched] daemon
    ([Job.Parse], [Job.parsePlan] and the four repeat projectors) together
    with the parts of Go's [time], [strings], [fmt], [strconv] and [regexp]
    packages that this code calls.

    The program is embedded in the variant that has plans, states and a
    run log (the first one of src/unnamed/part_000).  Of the earlier
    variant src/sched.go only [parseDate] is embedded, as
    [SchedGo.parseDate].

    Conventions of the embedding.
    - A [time.Time] is the number of nanoseconds since 1970-01-01 00:00:00
      in [time.Local]; [time.Local] is taken to be a zone with a fixed
      offset, so that wall-clock fields are a function of that number and
      adding 24 hours moves to the same clock time on the next day.  The
      representable range of Go's [Time] is not modelled (a [Z] is used).
    - [time.Now()] is read once per resolution: every function that calls
      it takes the instant [now] as an argument.
    - [==] on two [time.Time] values is equality of the instants.
    - A [time.Duration] is an [int64]; the products computed by
      [parseDuration] wrap around.
    - Strings are sequences of bytes; inputs are taken to be ASCII.
    - The run log ([Job.Log]) is the list of instants that [LoadLog] read.
    - The two [for] loops that advance a day at a time take a fuel argument
      that bounds the number of iterations; running out of it is the
      outcome [OutOfFuel]. *)

From Stdlib Require Import ZArith Lia List Bool String Ascii.
Import ListNotations.
Open Scope string_scope.
Open Scope Z_scope.

(* ===================================================================== *)
(** * Outcomes of fallible code *)
(* ===================================================================== *)

(** [Ok a]: the function returned [a] and a nil error.  [Err msg]: it
    returned [errors.New(msg)].  [Panic]: a run-time panic.  [OutOfFuel]:
    a loop was still running when the fuel ran out. *)
Inductive result (A : Type) : Type :=
| Ok (a : A)
| Err (msg : string)
| Panic
| OutOfFuel.

Arguments Ok {A} a.
Arguments Err {A} msg.
Arguments Panic {A}.
Arguments OutOfFuel {A}.

Definition bind {A B : Type} (r : result A) (k : A -> result B) : result B :=
  match r with
  | Ok a => k a
  | Err msg => Err msg
  | Panic => Panic
  | OutOfFuel => OutOfFuel
  end.

Notation "x <- r ;; k" := (bind r (fun x => k))
  (at level 61, r at next level, right associativity).

Definition mapResult {A B : Type} (f : A -> B) (r : result A) : result B :=
  x <- r ;; Ok (f x).

Notation "f <$> r" := (mapResult f r) (at level 61, right associativity).

Definition isErr {A : Type} (r : result A) : bool :=
  match r with Err _ => true | _ => false end.

(* ===================================================================== *)
(** * Package [time] *)
(* ===================================================================== *)

Module GoTime.

Definition Time := Z.
Definition Duration := Z.

Definition Nanosecond : Duration := 1.
Definition Microsecond : Duration := 1000 * Nanosecond.
Definition Millisecond : Duration := 1000 * Microsecond.
Definition Second : Duration := 1000 * Millisecond.
Definition Minute : Duration := 60 * Second.
Definition Hour : Duration := 60 * Minute.

(** Two's-complement wrap-around of a 64-bit signed integer. *)
Definition wrap64 (z : Z) : Z := (z + 2 ^ 63) mod 2 ^ 64 - 2 ^ 63.

(** [a * b] on values of type [Duration]. *)
Definition mulDuration (a b : Duration) : Duration := wrap64 (a * b).

Definition After (t u : Time) : bool := u <? t.
Definition Before (t u : Time) : bool := t <? u.
Definition Equal (t u : Time) : bool := t =? u.
Definition Add (t : Time) (d : Duration) : Time := t + d.

Inductive Weekday : Set :=
| Sunday | Monday | Tuesday | Wednesday | Thursday | Friday | Saturday.

Definition weekdayIndex (w : Weekday) : Z :=
  match w with
  | Sunday => 0 | Monday => 1 | Tuesday => 2 | Wednesday => 3
  | Thursday => 4 | Friday => 5 | Saturday => 6
  end.

Definition weekdayOfIndex (i : Z) : Weekday :=
  match i with
  | 0 => Sunday | 1 => Monday | 2 => Tuesday | 3 => Wednesday
  | 4 => Thursday | 5 => Friday | _ => Saturday
  end.

Definition weekdayEqb (a b : Weekday) : bool :=
  weekdayIndex a =? weekdayIndex b.

(** ** The proleptic Gregorian calendar

    Days are counted from 1970-01-01.  Inside the conversion a year runs
    from March to February, so that the leap day is its last day, and
    years are grouped in eras of 400 years (146097 days). *)

Definition daysPerEra : Z := 146097.
Definition epochShift : Z := 719468.

(** Day number of the first day of year-of-era [yoe] within its era. *)
Definition yearStart (yoe : Z) : Z := 365 * yoe + yoe / 4 - yoe / 100.

(** Day of the March-based year at which month [mp] (0 = March) starts. *)
Definition monthStart (mp : Z) : Z := (153 * mp + 2) / 5.

(** Day number of the civil date [y]-[m]-[d], for [m] in 1..12; [d] may
    lie outside its month and then counts on from the first of [m]. *)
Definition daysFromCivil (y m d : Z) : Z :=
  let y' := if m <=? 2 then y - 1 else y in
  let era := y' / 400 in
  let yoe := y' mod 400 in
  let mp := (m + 9) mod 12 in
  let doy := monthStart mp + (d - 1) in
  era * daysPerEra + (yearStart yoe + doy) - epochShift.

Definition yearOfEra (doe : Z) : Z :=
  (doe - doe / 1460 + doe / 36524 - doe / 146096) / 365.

Definition dayOfYear (doe : Z) : Z := doe - yearStart (yearOfEra doe).

Definition monthOfDoy (doy : Z) : Z := (5 * doy + 2) / 153.

Definition dayOfDoy (doy : Z) : Z := doy - monthStart (monthOfDoy doy) + 1.

(** Civil date (year, month, day) of a day number. *)
Definition civilFromDays (z : Z) : Z * Z * Z :=
  let z' := z + epochShift in
  let era := z' / daysPerEra in
  let doe := z' mod daysPerEra in
  let yoe := yearOfEra doe in
  let doy := dayOfYear doe in
  let mp := monthOfDoy doy in
  let d := dayOfDoy doy in
  let m := if mp <? 10 then mp + 3 else mp - 9 in
  let y := yoe + era * 400 in
  (if m <=? 2 then y + 1 else y, m, d).

Definition secondsPerDay : Z := 86400.

(** [time.Date(year, month, day, hour, min, sec, 0, time.Local)].  The
    month is normalised into 1..12 by carrying into the year; day, hour,
    minute and second overflow by plain addition. *)
Definition Date (year month day hour min sec : Z) : Time :=
  let m0 := month - 1 in
  let y := year + m0 / 12 in
  let m := m0 mod 12 + 1 in
  (daysFromCivil y m day * secondsPerDay + hour * 3600 + min * 60 + sec)
  * Second.

Definition unixSeconds (t : Time) : Z := t / Second.
Definition unixDays (t : Time) : Z := unixSeconds t / secondsPerDay.

(** [t.Date()] *)
Definition Time_Date (t : Time) : Z * Z * Z := civilFromDays (unixDays t).

Definition Time_Year (t : Time) : Z := fst (fst (Time_Date t)).
Definition Time_Month (t : Time) : Z := snd (fst (Time_Date t)).
Definition Time_Day (t : Time) : Z := snd (Time_Date t).

(** [t.Clock()] *)
Definition Time_Clock (t : Time) : Z * Z * Z :=
  let s := unixSeconds t mod secondsPerDay in
  (s / 3600, (s mod 3600) / 60, s mod 60).

Definition Time_Hour (t : Time) : Z := fst (fst (Time_Clock t)).
Definition Time_Minute (t : Time) : Z := snd (fst (Time_Clock t)).
Definition Time_Second (t : Time) : Z := snd (Time_Clock t).

(** [t.Weekday()]; 1970-01-01 was a Thursday. *)
Definition Time_Weekday (t : Time) : Weekday :=
  weekdayOfIndex ((unixDays t + 4) mod 7).

End GoTime.

(* ===================================================================== *)
(** * Package [strings] *)
(* ===================================================================== *)

Module GoStrings.

(** [strings.Split(s, sep)] for a one-byte separator. *)
Fixpoint Split (s : string) (sep : ascii) : list string :=
  match s with
  | EmptyString => [EmptyString]
  | String c rest =>
      if Ascii.eqb c sep then EmptyString :: Split rest sep
      else match Split rest sep with
           | [] => [String c EmptyString]
           | w :: ws => String c w :: ws
           end
  end.

Definition Join (l : list string) (sep : string) : string :=
  String.concat sep l.

Fixpoint HasPrefix (s prefix : string) : bool :=
  match prefix, s with
  | EmptyString, _ => true
  | String p ps, String c cs => Ascii.eqb c p && HasPrefix cs ps
  | String _ _, EmptyString => false
  end.

Fixpoint dropBytes (n : nat) (s : string) : string :=
  match n, s with
  | O, _ => s
  | S k, String _ cs => dropBytes k cs
  | S _, EmptyString => EmptyString
  end.

Definition TrimPrefix (s prefix : string) : string :=
  if HasPrefix s prefix then dropBytes (String.length prefix) s else s.

(** [strings.Count(s, sep)] for a one-byte separator. *)
Fixpoint Count (s : string) (sep : ascii) : Z :=
  match s with
  | EmptyString => 0
  | String c cs => (if Ascii.eqb c sep then 1 else 0) + Count cs sep
  end.

Definition Contains (s : string) (sep : ascii) : bool := 0 <? Count s sep.

Definition isUpper (c : ascii) : bool :=
  (65 <=? nat_of_ascii c)%nat && (nat_of_ascii c <=? 90)%nat.

Definition lowerByte (c : ascii) : ascii :=
  if isUpper c then ascii_of_nat (nat_of_ascii c + 32) else c.

Fixpoint ToLower (s : string) : string :=
  match s with
  | EmptyString => EmptyString
  | String c cs => String (lowerByte c) (ToLower cs)
  end.

End GoStrings.

(* ===================================================================== *)
(** * Package [regexp] *)
(* ===================================================================== *)

Module GoRegexp.

(** Regular expressions over bytes, matched with Brzozowski derivatives. *)
Inductive re : Type :=
| Void
| Eps
| Class (p : ascii -> bool)
| Cat (r s : re)
| Alt (r s : re)
| Star (r : re).

Fixpoint nullable (r : re) : bool :=
  match r with
  | Void => false
  | Eps => true
  | Class _ => false
  | Cat r s => nullable r && nullable s
  | Alt r s => nullable r || nullable s
  | Star _ => true
  end.

Fixpoint deriv (c : ascii) (r : re) : re :=
  match r with
  | Void => Void
  | Eps => Void
  | Class p => if p c then Eps else Void
  | Cat r s =>
      if nullable r then Alt (Cat (deriv c r) s) (deriv c s)
      else Cat (deriv c r) s
  | Alt r s => Alt (deriv c r) (deriv c s)
  | Star r => Cat (deriv c r) (Star r)
  end.

(** Does [r] match the whole of [s]? *)
Fixpoint matches (r : re) (s : string) : bool :=
  match s with
  | EmptyString => nullable r
  | String c cs => matches (deriv c r) cs
  end.

Definition anyByte : re := Class (fun _ => true).

(** One alternative of a pattern: [bol] and [eol] say whether it starts
    with [^] and whether it ends with [$]. *)
Record branch : Type := Branch { bol : bool; body : re; eol : bool }.

(** A pattern is the alternation of its branches ([|] binds weaker than
    concatenation and than the anchors). *)
Definition pattern : Type := list branch.

Definition branchMatches (b : branch) (s : string) : bool :=
  matches
    (Cat (if bol b then Eps else Star anyByte)
         (Cat (body b) (if eol b then Eps else Star anyByte)))
    s.

(** [re.MatchString(s)]: does [s] contain a match of the pattern? *)
Definition MatchString (p : pattern) (s : string) : bool :=
  existsb (fun b => branchMatches b s) p.

(** Building blocks. *)
Definition isDigit (c : ascii) : bool :=
  (48 <=? nat_of_ascii c)%nat && (nat_of_ascii c <=? 57)%nat.

Definition isLetter (c : ascii) : bool :=
  let n := nat_of_ascii c in
  ((97 <=? n) && (n <=? 122) || (65 <=? n) && (n <=? 90))%nat.

Definition digit : re := Class isDigit.                 (* [0-9] *)
Definition letter : re := Class isLetter.               (* (?i)[a-z] *)
Definition byte (c : ascii) : re := Class (Ascii.eqb c).
(** A letter under the flag [(?i)]. *)
Definition byteI (c : ascii) : re :=
  Class (fun x => Ascii.eqb (GoStrings.lowerByte x) c).
Definition opt (r : re) : re := Alt r Eps.              (* r? *)
Definition plus (r : re) : re := Cat r (Star r).        (* r+ *)
Definition rep2 (r : re) : re := Cat r r.               (* r{2} *)
Definition rep12 (r : re) : re := Cat r (opt r).        (* r{1,2} *)

Fixpoint seqs (l : list re) : re :=
  match l with
  | [] => Eps
  | [r] => r
  | r :: rs => Cat r (seqs rs)
  end.

Fixpoint alts (l : list re) : re :=
  match l with
  | [] => Void
  | [r] => r
  | r :: rs => Alt r (alts rs)
  end.

(** The letters of [s], each under [(?i)]. *)
Fixpoint wordI (s : string) : re :=
  match s with
  | EmptyString => Eps
  | String c EmptyString => byteI c
  | String c cs => Cat (byteI c) (wordI cs)
  end.

Fixpoint takeDigits (s : string) : string :=
  match s with
  | String c cs => if isDigit c then String c (takeDigits cs) else EmptyString
  | EmptyString => EmptyString
  end.

Fixpoint dropDigits (s : string) : string :=
  match s with
  | String c cs => if isDigit c then dropDigits cs else s
  | EmptyString => EmptyString
  end.

(** [regexp.MustCompile(`[0-9]+`).FindString(s)]: the leftmost maximal
    run of digits, or the empty string. *)
Fixpoint FindDigits (s : string) : string :=
  match s with
  | EmptyString => EmptyString
  | String c cs => if isDigit c then String c (takeDigits cs) else FindDigits cs
  end.

Fixpoint allLetters (s : string) : bool :=
  match s with
  | EmptyString => true
  | String c cs => isLetter c && allLetters cs
  end.

End GoRegexp.

(* ===================================================================== *)
(** * Packages [strconv] and [fmt] *)
(* ===================================================================== *)

Module GoStrconv.

Definition digitValue (c : ascii) : Z := Z.of_nat (nat_of_ascii c) - 48.

(** Value of a string of decimal digits, most significant first. *)
Fixpoint digitsValue (acc : Z) (s : string) : Z :=
  match s with
  | EmptyString => acc
  | String c cs => digitsValue (10 * acc + digitValue c) cs
  end.

Fixpoint allDigits (s : string) : bool :=
  match s with
  | EmptyString => true
  | String c cs => GoRegexp.isDigit c && allDigits cs
  end.

Definition minInt : Z := - 2 ^ 63.
Definition maxInt : Z := 2 ^ 63 - 1.

Definition inInt (z : Z) : bool := (minInt <=? z) && (z <=? maxInt).

(** [strconv.Atoi(s)] on a 64-bit platform; [None] stands for a non-nil
    error (bad syntax or out of range). *)
Definition Atoi (s : string) : option Z :=
  let '(neg, ds) :=
    match s with
    | String "-" cs => (true, cs)
    | String "+" cs => (false, cs)
    | _ => (false, s)
    end in
  match ds with
  | EmptyString => None
  | _ =>
      if allDigits ds then
        let v := if neg then - digitsValue 0 ds else digitsValue 0 ds in
        if inInt v then Some v else None
      else None
  end.

End GoStrconv.

Module GoFmt.

(** Space as skipped by the verb [%d]; a token holds neither a blank nor
    a newline. *)
Definition isSpace (c : ascii) : bool :=
  let n := nat_of_ascii c in
  ((n =? 9) || (n =? 11) || (n =? 12) || (n =? 13) || (n =? 32))%nat.

Fixpoint skipSpace (s : string) : string :=
  match s with
  | String c cs => if isSpace c then skipSpace cs else s
  | EmptyString => EmptyString
  end.

(** The verb [%d] scanning into an [*int]: optional space, an optional
    sign, one or more decimal digits.  Returns the value and the rest of
    the input, or [None] for a scan error. *)
Definition scanInt (s : string) : option (Z * string) :=
  let s1 := skipSpace s in
  let '(neg, s2) :=
    match s1 with
    | String "-" cs => (true, cs)
    | String "+" cs => (false, cs)
    | _ => (false, s1)
    end in
  match GoRegexp.takeDigits s2 with
  | EmptyString => None
  | ds =>
      let v := GoStrconv.digitsValue 0 ds in
      let v := if neg then - v else v in
      if GoStrconv.inInt v then Some (v, GoRegexp.dropDigits s2) else None
  end.

Section Sscanf.
(** The state that the pointer arguments point into. *)
Variable S : Type.

(** The verbs after the first one, each preceded by the literal byte
    [sep]; [ptrs] are the stores through the remaining pointers.
    Returns the number of items stored, whether an error occurred, and
    the state with the stores done so far. *)
Fixpoint scanRest (sep : ascii) (ptrs : list (Z -> S -> S))
         (s : string) (st : S) : Z * bool * S :=
  match ptrs with
  | [] => (0, false, st)
  | p :: ps =>
      match s with
      | String c cs =>
          if Ascii.eqb c sep then
            match scanInt cs with
            | Some (v, rest) =>
                let '(n, err, st') := scanRest sep ps rest (p v st) in
                (n + 1, err, st')
            | None => (0, true, st)
            end
          else (0, true, st)
      | EmptyString => (0, true, st)
      end
  end.

(** [fmt.Sscanf(s, "%d<sep>%d...", ptrs...)]. *)
Definition Sscanf (s : string) (sep : ascii) (ptrs : list (Z -> S -> S))
           (st : S) : Z * bool * S :=
  match ptrs with
  | [] => (0, false, st)
  | p :: ps =>
      match scanInt s with
      | Some (v, rest) =>
          let '(n, err, st') := scanRest sep ps rest (p v st) in
          (n + 1, err, st')
      | None => (0, true, st)
      end
  end.
End Sscanf.

Arguments Sscanf {S} s sep ptrs st.
Arguments scanRest {S} sep ptrs s st.

End GoFmt.

(* ===================================================================== *)
(** * The program *)
(* ===================================================================== *)

(** ** Data model *)

(** [const ( EXPIRED = iota; NOW; WAIT )] *)
Inductive state : Set := EXPIRED | NOW | WAIT.

Record Plan : Type := mkPlan {
  Time : GoTime.Time;
  Comment : string;
  State : state
}.

Record Job : Type := mkJob {
  Cmd : string;
  Args : list string;
  Path : string;
  Plans : list Plan;
  Log : list GoTime.Time
}.

Definition appendPlan (self : Job) (p : Plan) : Job :=
  mkJob (Cmd self) (Args self) (Path self) (Plans self ++ [p]) (Log self).

Definition setCmd (self : Job) (line : string) : Job :=
  mkJob line (Args self) (Path self) (Plans self) (Log self).

Definition appendArg (self : Job) (line : string) : Job :=
  mkJob (Cmd self) (Args self ++ [line]) (Path self) (Plans self) (Log self).

(** The local variables of [parsePlan] that the token loop updates. *)
Record vars : Type := mkVars {
  year : Z;
  month : Z;
  day : Z;
  hour : Z;
  minute : Z;
  second : Z;
  isRepeat : bool;
  isHourRepeat : bool;
  isDayRepeat : bool;
  isWeekRepeat : bool;
  isMonthRepeat : bool;
  dayOfWeek : GoTime.Weekday;
  duration : GoTime.Duration
}.

(** Their zero values. *)
Definition zeroVars : vars :=
  mkVars 0 0 0 0 0 0 false false false false false GoTime.Sunday 0.

Definition set_year (x : Z) (v : vars) : vars :=
  mkVars x (month v) (day v) (hour v) (minute v) (second v) (isRepeat v)
    (isHourRepeat v) (isDayRepeat v) (isWeekRepeat v) (isMonthRepeat v)
    (dayOfWeek v) (duration v).

Definition set_month (x : Z) (v : vars) : vars :=
  mkVars (year v) x (day v) (hour v) (minute v) (second v) (isRepeat v)
    (isHourRepeat v) (isDayRepeat v) (isWeekRepeat v) (isMonthRepeat v)
    (dayOfWeek v) (duration v).

Definition set_day (x : Z) (v : vars) : vars :=
  mkVars (year v) (month v) x (hour v) (minute v) (second v) (isRepeat v)
    (isHourRepeat v) (isDayRepeat v) (isWeekRepeat v) (isMonthRepeat v)
    (dayOfWeek v) (duration v).

Definition set_hour (x : Z) (v : vars) : vars :=
  mkVars (year v) (month v) (day v) x (minute v) (second v) (isRepeat v)
    (isHourRepeat v) (isDayRepeat v) (isWeekRepeat v) (isMonthRepeat v)
    (dayOfWeek v) (duration v).

Definition set_minute (x : Z) (v : vars) : vars :=
  mkVars (year v) (month v) (day v) (hour v) x (second v) (isRepeat v)
    (isHourRepeat v) (isDayRepeat v) (isWeekRepeat v) (isMonthRepeat v)
    (dayOfWeek v) (duration v).

Definition set_second (x : Z) (v : vars) : vars :=
  mkVars (year v) (month v) (day v) (hour v) (minute v) x (isRepeat v)
    (isHourRepeat v) (isDayRepeat v) (isWeekRepeat v) (isMonthRepeat v)
    (dayOfWeek v) (duration v).

Definition set_isRepeat (x : bool) (v : vars) : vars :=
  mkVars (year v) (month v) (day v) (hour v) (minute v) (second v) x
    (isHourRepeat v) (isDayRepeat v) (isWeekRepeat v) (isMonthRepeat v)
    (dayOfWeek v) (duration v).

Definition set_isHourRepeat (x : bool) (v : vars) : vars :=
  mkVars (year v) (month v) (day v) (hour v) (minute v) (second v)
    (isRepeat v) x (isDayRepeat v) (isWeekRepeat v) (isMonthRepeat v)
    (dayOfWeek v) (duration v).

Definition set_isDayRepeat (x : bool) (v : vars) : vars :=
  mkVars (year v) (month v) (day v) (hour v) (minute v) (second v)
    (isRepeat v) (isHourRepeat v) x (isWeekRepeat v) (isMonthRepeat v)
    (dayOfWeek v) (duration v).

Definition set_isWeekRepeat (x : bool) (v : vars) : vars :=
  mkVars (year v) (month v) (day v) (hour v) (minute v) (second v)
    (isRepeat v) (isHourRepeat v) (isDayRepeat v) x (isMonthRepeat v)
    (dayOfWeek v) (duration v).

Definition set_isMonthRepeat (x : bool) (v : vars) : vars :=
  mkVars (year v) (month v) (day v) (hour v) (minute v) (second v)
    (isRepeat v) (isHourRepeat v) (isDayRepeat v) (isWeekRepeat v) x
    (dayOfWeek v) (duration v).

Definition set_dayOfWeek (x : GoTime.Weekday) (v : vars) : vars :=
  mkVars (year v) (month v) (day v) (hour v) (minute v) (second v)
    (isRepeat v) (isHourRepeat v) (isDayRepeat v) (isWeekRepeat v)
    (isMonthRepeat v) x (duration v).

Definition set_duration (x : GoTime.Duration) (v : vars) : vars :=
  mkVars (year v) (month v) (day v) (hour v) (minute v) (second v)
    (isRepeat v) (isHourRepeat v) (isDayRepeat v) (isWeekRepeat v)
    (isMonthRepeat v) (dayOfWeek v) x.

(** ** The patterns of [parsePlan] *)

Section Patterns.
Import GoRegexp.

(** [^([0-9]{2})?[0-9]{2}-[0-9]{1,2}-[0-9]{1,2}|[0-9]{1,2}-[0-9]{1,2}$] *)
Definition datePattern : pattern :=
  [ Branch true
      (seqs [opt (rep2 digit); rep2 digit; byte "-"; rep12 digit;
             byte "-"; rep12 digit])
      false;
    Branch false (seqs [rep12 digit; byte "-"; rep12 digit]) true ].

(** [^[0-9]{1,2}:[0-9]{1,2}(:[0-9]{1,2})?$] *)
Definition timePattern : pattern :=
  [ Branch true
      (seqs [rep12 digit; byte ":"; rep12 digit;
             opt (Cat (byte ":") (rep12 digit))])
      true ].

(** [^[0-9]{1,2}(:[0-9]{1,2})?$] *)
Definition minuteSecondPattern : pattern :=
  [ Branch true (seqs [rep12 digit; opt (Cat (byte ":") (rep12 digit))])
      true ].

(** [(?i)^sunL|monL|tueL|wedL|thuL|friL|satL$], where [L] stands for
    [[a-z]*] *)
Definition dayOfWeekPattern : pattern :=
  [ Branch true (Cat (wordI "sun") (Star letter)) false;
    Branch false (Cat (wordI "mon") (Star letter)) false;
    Branch false (Cat (wordI "tue") (Star letter)) false;
    Branch false (Cat (wordI "wed") (Star letter)) false;
    Branch false (Cat (wordI "thu") (Star letter)) false;
    Branch false (Cat (wordI "fri") (Star letter)) false;
    Branch false (Cat (wordI "sat") (Star letter)) true ].

(** [(?i)^[0-9]{1,2}(st|nd|rd|th)$] *)
Definition dayOfMonthPattern : pattern :=
  [ Branch true
      (seqs [rep12 digit;
             alts [wordI "st"; wordI "nd"; wordI "rd"; wordI "th"]])
      true ].

(** [(?i)^~[0-9]+(hL|mL|sL)$], where [L] stands for [[a-z]*] *)
Definition durationPattern : pattern :=
  [ Branch true
      (seqs [byte "~"; plus digit;
             alts [Cat (byteI "h") (Star letter);
                   Cat (byteI "m") (Star letter);
                   Cat (byteI "s") (Star letter)]])
      true ].

(** The groups 1 and 2 of [(?i)^~([0-9]+)([a-z]+)$] on [spec], or [None]
    when [FindStringSubmatch] returns nil. *)
Definition durationGroups (spec : string) : option (string * string) :=
  match spec with
  | String "~" rest =>
      let g1 := takeDigits rest in
      let g2 := dropDigits rest in
      match g1, g2 with
      | String _ _, String _ _ =>
          if allLetters g2 then Some (g1, g2) else None
      | _, _ => None
      end
  | _ => None
  end.
End Patterns.

(** ** Field parsers *)

Definition parseDate (now : GoTime.Time) (spec : string) (v : vars)
  : result vars :=
  let dashCount := GoStrings.Count spec "-" in
  if dashCount =? 2 then
    let '(n, err, v1) :=
      GoFmt.Sscanf spec "-" [set_year; set_month; set_day] v in
    if negb (n =? 3) || err then Err "parse date"
    else if year v1 <? 1000 then Ok (set_year (year v1 + 2000) v1)
    else Ok v1
  else if dashCount =? 1 then
    let '(n, err, v1) := GoFmt.Sscanf spec "-" [set_month; set_day] v in
    if negb (n =? 3) || err then Err "parse date"
    else Ok (set_year (GoTime.Time_Year now) v1)
  else Ok v.

Definition parseTime (spec : string) (v : vars) : result vars :=
  let semiCount := GoStrings.Count spec ":" in
  if semiCount =? 2 then
    let '(n, err, v1) :=
      GoFmt.Sscanf spec ":" [set_hour; set_minute; set_second] v in
    if negb (n =? 3) || err then Err "parse time" else Ok v1
  else if semiCount =? 1 then
    let '(n, err, v1) := GoFmt.Sscanf spec ":" [set_hour; set_minute] v in
    if negb (n =? 2) || err then Err "parse time" else Ok v1
  else Ok v.

Definition parseMinuteSecond (spec : string) (v : vars) : result vars :=
  if GoStrings.Contains spec ":" then
    let '(n, err, v1) := GoFmt.Sscanf spec ":" [set_minute; set_second] v in
    if negb (n =? 2) || err then Err "parse minute:second" else Ok v1
  else
    let '(n, err, v1) := GoFmt.Sscanf spec ":" [set_minute] v in
    if negb (n =? 1) || err then Err "parse minute" else Ok v1.

Definition parseDayOfWeek (spec : string) (v : vars) : result vars :=
  let spec := GoStrings.ToLower spec in
  if GoStrings.HasPrefix spec "sun" then
    Ok (set_dayOfWeek GoTime.Sunday v)
  else if GoStrings.HasPrefix spec "mon" then
    Ok (set_dayOfWeek GoTime.Monday v)
  else if GoStrings.HasPrefix spec "tue" then
    Ok (set_dayOfWeek GoTime.Tuesday v)
  else if GoStrings.HasPrefix spec "wed" then
    Ok (set_dayOfWeek GoTime.Wednesday v)
  else if GoStrings.HasPrefix spec "thu" then
    Ok (set_dayOfWeek GoTime.Thursday v)
  else if GoStrings.HasPrefix spec "fri" then
    Ok (set_dayOfWeek GoTime.Friday v)
  else if GoStrings.HasPrefix spec "sat" then
    Ok (set_dayOfWeek GoTime.Saturday v)
  else Err "parse day of week".

Definition parseDayOfMonth (spec : string) (v : vars) : result vars :=
  let ds := GoRegexp.FindDigits spec in
  if String.eqb ds "" then Err "parse day of month"
  else match GoStrconv.Atoi ds with
       | None => Err "parse day of month"
       | Some d => Ok (set_day d v)
       end.

(** The message of the error that [strconv.Atoi] returns for a string of
    digits, which can only be out of range. *)
Definition atoiRangeError (s : string) : string :=
  let q := String (ascii_of_nat 34) EmptyString in
  "strconv.Atoi: parsing " ++ q ++ s ++ q ++ ": value out of range".

Definition parseDuration (spec : string) (v : vars) : result vars :=
  match durationGroups spec with
  | None => Panic
  | Some (g1, g2) =>
      match GoStrconv.Atoi g1 with
      | None => Err (atoiRangeError g1)
      | Some n =>
          match g2 with
          | EmptyString => Panic
          | String c _ =>
              if Ascii.eqb c "h" || Ascii.eqb c "H" then
                Ok (set_duration (GoTime.mulDuration GoTime.Hour n) v)
              else if Ascii.eqb c "m" || Ascii.eqb c "M" then
                Ok (set_duration (GoTime.mulDuration GoTime.Minute n) v)
              else if Ascii.eqb c "s" || Ascii.eqb c "S" then
                Ok (set_duration (GoTime.mulDuration GoTime.Second n) v)
              else Ok v
          end
      end
  end.

(** [parseDate] of src/sched.go: the same scan, without the offset for
    a short year. *)
Module SchedGo.

Definition parseDate (now : GoTime.Time) (spec : string) (v : vars)
  : result vars :=
  let dashCount := GoStrings.Count spec "-" in
  if dashCount =? 2 then
    let '(n, err, v1) :=
      GoFmt.Sscanf spec "-" [set_year; set_month; set_day] v in
    if negb (n =? 3) || err then Err "parse date" else Ok v1
  else if dashCount =? 1 then
    let '(n, err, v1) := GoFmt.Sscanf spec "-" [set_month; set_day] v in
    if negb (n =? 3) || err then Err "parse date"
    else Ok (set_year (GoTime.Time_Year now) v1)
  else Ok v.

End SchedGo.

(** ** The run log and the repeat projectors *)

Definition hasLog (log : list GoTime.Time) (start end_ : GoTime.Time) : bool :=
  existsb
    (fun t =>
       GoTime.After t start && GoTime.Before t end_
       || GoTime.Equal t start || GoTime.Equal t end_)
    log.

Definition between (t start end_ : GoTime.Time) : bool :=
  if GoTime.After t start && GoTime.Before t end_
     || GoTime.Equal t start || GoTime.Equal t end_
  then true
  else false.

(** [for !stop(t) { t = t.Add(time.Hour * 24) }] *)
Fixpoint advanceUntil (fuel : nat) (stop : GoTime.Time -> bool)
         (t : GoTime.Time) : result GoTime.Time :=
  if stop t then Ok t
  else match fuel with
       | O => OutOfFuel
       | S fuel' =>
           advanceUntil fuel' stop (GoTime.Add t (GoTime.Hour * 24))
       end.

Definition nextHourRepeat (now : GoTime.Time) (log : list GoTime.Time)
           (duration : GoTime.Duration) (minute second : Z)
  : GoTime.Time * state :=
  let duration :=
    if GoTime.Hour <? duration then GoTime.Hour else duration in
  let '(y, m, d) := GoTime.Time_Date now in
  let '(h, _, _) := GoTime.Time_Clock now in
  let t := GoTime.Date y m d h minute second in
  let tEnd := GoTime.Add t duration in
  if between now t tEnd && negb (hasLog log t tEnd) then (t, NOW)
  else if GoTime.After now t then (GoTime.Add t (GoTime.Hour * 1), WAIT)
  else (t, WAIT).

Definition nextDayRepeat (now : GoTime.Time) (log : list GoTime.Time)
           (duration : GoTime.Duration) (hour minute second : Z)
  : GoTime.Time * state :=
  let duration :=
    if GoTime.Hour * 24 <? duration then GoTime.Hour * 24 else duration in
  let '(y, m, d) := GoTime.Time_Date now in
  let t := GoTime.Date y m d hour minute second in
  let tEnd := GoTime.Add t duration in
  if between now t tEnd && negb (hasLog log t tEnd) then (t, NOW)
  else if GoTime.After now t then (GoTime.Add t (GoTime.Hour * 24), WAIT)
  else (t, WAIT).

Definition nextWeekRepeat (fuel : nat) (now : GoTime.Time)
           (log : list GoTime.Time) (duration : GoTime.Duration)
           (dayOfWeek : GoTime.Weekday) (hour minute second : Z)
  : result (GoTime.Time * state) :=
  let duration :=
    if GoTime.Hour * 24 * 7 <? duration then GoTime.Hour * 24 * 7
    else duration in
  let '(y, m, d) := GoTime.Time_Date now in
  let stop := fun t => GoTime.weekdayEqb (GoTime.Time_Weekday t) dayOfWeek in
  t <- advanceUntil fuel stop (GoTime.Date y m d hour minute second) ;;
  let tEnd := GoTime.Add t duration in
  if between now t tEnd && negb (hasLog log t tEnd) then Ok (t, NOW)
  else if GoTime.After now t then
    t' <- advanceUntil fuel stop (GoTime.Add t (GoTime.Hour * 24)) ;;
    Ok (t', WAIT)
  else Ok (t, WAIT).

Definition nextMonthRepeat (fuel : nat) (now : GoTime.Time)
           (log : list GoTime.Time) (duration : GoTime.Duration)
           (day hour minute second : Z)
  : result (GoTime.Time * state) :=
  let duration :=
    if GoTime.Hour * 24 * 30 <? duration then GoTime.Hour * 24 * 30
    else duration in
  let '(y, m, _) := GoTime.Time_Date now in
  let stop := fun t => GoTime.Time_Day t =? day in
  t <- advanceUntil fuel stop (GoTime.Date y m day hour minute second) ;;
  let tEnd := GoTime.Add t duration in
  if between now t tEnd && negb (hasLog log t tEnd) then Ok (t, NOW)
  else if GoTime.After now t then
    t' <- advanceUntil fuel stop (GoTime.Add t (GoTime.Hour * 24)) ;;
    Ok (t', WAIT)
  else Ok (t, WAIT).

(** ** [Job.parsePlan] *)

(** The first loop: tokens before the first one that starts with [#] are
    specs, that token without its [#] and all later ones are the comment. *)
Definition scanToken (acc : list string * bool * list string)
           (spec : string) : list string * bool * list string :=
  let '(specs, inComment, comments) := acc in
  if inComment then (specs, inComment, (comments ++ [spec])%list)
  else if GoStrings.HasPrefix spec "#" then
    (specs, true, (comments ++ [GoStrings.dropBytes 1 spec])%list)
  else ((specs ++ [spec])%list, inComment, comments).

Definition scanTokens (input : string) : list string * bool * list string :=
  fold_left scanToken (GoStrings.Split input " ") ([], false, []).

Definition specsOf (input : string) : list string :=
  fst (fst (scanTokens input)).

Definition commentOf (input : string) : string :=
  GoStrings.Join (snd (scanTokens input)) " ".

(** One pass of the [switch] over a spec. *)
Definition classify (now : GoTime.Time) (v : vars) (spec : string)
  : result vars :=
  if negb (isRepeat v) && GoRegexp.MatchString datePattern spec then
    parseDate now spec v
  else if negb (isRepeat v) && GoRegexp.MatchString timePattern spec then
    parseTime spec v
  else if String.eqb spec "every" then Ok (set_isRepeat true v)
  else if String.eqb spec "hour" && isRepeat v then
    Ok (set_isHourRepeat true v)
  else if String.eqb spec "day" && isRepeat v then
    Ok (set_isDayRepeat true v)
  else if isRepeat v && GoRegexp.MatchString dayOfWeekPattern spec then
    v1 <- parseDayOfWeek spec v ;; Ok (set_isWeekRepeat true v1)
  else if isWeekRepeat v && GoRegexp.MatchString timePattern spec then
    parseTime spec v
  else if isRepeat v && GoRegexp.MatchString dayOfMonthPattern spec then
    v1 <- parseDayOfMonth spec v ;; Ok (set_isMonthRepeat true v1)
  else if isMonthRepeat v && GoRegexp.MatchString timePattern spec then
    parseTime spec v
  else if isHourRepeat v && GoRegexp.MatchString minuteSecondPattern spec then
    parseMinuteSecond spec v
  else if isDayRepeat v && GoRegexp.MatchString timePattern spec then
    parseTime spec v
  else if GoRegexp.MatchString durationPattern spec then
    parseDuration spec v
  else Ok v.

(** The second loop, from the variables [v] on. *)
Fixpoint parseSpecs (now : GoTime.Time) (specs : list string) (v : vars)
  : result vars :=
  match specs with
  | [] => Ok v
  | spec :: rest => v1 <- classify now v spec ;; parseSpecs now rest v1
  end.

(** The state of a plan without repeat. *)
Definition nonRepeatState (now start end_ : GoTime.Time) : state :=
  if GoTime.After now start && GoTime.Before now end_ then NOW
  else if GoTime.After now end_ then EXPIRED
  else WAIT.

(** The part of [parsePlan] after the loops: start time and state. *)
Definition resolve (fuel : nat) (now : GoTime.Time) (log : list GoTime.Time)
           (v : vars) : result (GoTime.Time * state) :=
  if negb (isRepeat v) then
    let start :=
      GoTime.Date (year v) (month v) (day v) (hour v) (minute v) (second v) in
    let end_ := GoTime.Add start (duration v) in
    Ok (start, nonRepeatState now start end_)
  else if isHourRepeat v then
    Ok (nextHourRepeat now log (duration v) (minute v) (second v))
  else if isDayRepeat v then
    Ok (nextDayRepeat now log (duration v) (hour v) (minute v) (second v))
  else if isWeekRepeat v then
    nextWeekRepeat fuel now log (duration v) (dayOfWeek v)
      (hour v) (minute v) (second v)
  else if isMonthRepeat v then
    nextMonthRepeat fuel now log (duration v) (day v)
      (hour v) (minute v) (second v)
  else Err "invalid time spec".

Definition parsePlan (fuel : nat) (now : GoTime.Time)
           (log : list GoTime.Time) (input : string) : result Plan :=
  v <- parseSpecs now (specsOf input) zeroVars ;;
  r <- resolve fuel now log v ;;
  Ok (mkPlan (fst r) (commentOf input) (snd r)).

(** ** [Job.Parse] *)

(** [const ( parsingPlan = iota; parsingArgs )] *)
Inductive parseState : Set := parsingPlan | parsingArgs.

(** The lines that the reading loop keeps (each line is already trimmed). *)
Definition keepLine (line : string) : bool :=
  negb (String.eqb line "") && negb (GoStrings.HasPrefix line "#").

(** The loop over [lines], from index [i] on. *)
Fixpoint parseLines (fuel : nat) (now : GoTime.Time) (i : Z)
         (lines : list string) (st : parseState) (self : Job) : result Job :=
  match lines with
  | [] => Ok self
  | line :: rest =>
      match st with
      | parsingPlan =>
          if (i =? 0) || GoStrings.HasPrefix line "and " then
            let line := GoStrings.TrimPrefix line "and " in
            match parsePlan fuel now (Log self) line with
            | Ok p =>
                parseLines fuel now (i + 1) rest parsingPlan
                  (appendPlan self p)
            | Err _ => Err "parse datetime"
            | Panic => Panic
            | OutOfFuel => OutOfFuel
            end
          else parseLines fuel now (i + 1) rest parsingArgs (setCmd self line)
      | parsingArgs =>
          parseLines fuel now (i + 1) rest parsingArgs (appendArg self line)
      end
  end.

(** [Job.Parse] on a job whose log is loaded, given the trimmed lines of
    its file. *)
Definition Parse (fuel : nat) (now : GoTime.Time) (fileLines : list string)
           (self : Job) : result Job :=
  parseLines fuel now 0 (filter keepLine fileLines) parsingPlan self.

(** The job that [checkJobs] builds before calling [Parse]. *)
Definition newJob (path : string) (log : list GoTime.Time) : Job :=
  mkJob "" [] path [] log.


(* ===================================================================== *)
(** * Definitions used in the statements *)
(* ===================================================================== *)

(** Day number, within its era, of the day after the last day of
    year-of-era [y]. *)
Definition yearEnd (y : Z) : Z :=
  GoTime.yearStart (y + 1) + (y + 1) / 400.

(** Day of the March-based year on which a day number falls. *)
Definition doyOf (z : Z) : Z :=
  GoTime.dayOfYear ((z + GoTime.epochShift) mod GoTime.daysPerEra).

(** Starting on day [doy] of a March-based year that has 365 or 366 days,
    is day-of-month [k] met within [fuel] further days, whichever of the
    two lengths the year has? *)
Fixpoint reaches (fuel : nat) (k doy : Z) : bool :=
  if GoTime.dayOfDoy doy =? k then true
  else match fuel with
       | O => false
       | S fuel' =>
           if doy <? 364 then reaches fuel' k (doy + 1)
           else if doy =? 364 then
             if reaches fuel' k 365 then reaches fuel' k 0 else false
           else reaches fuel' k 0
       end.

Definition zrange (lo : Z) (n : nat) : list Z :=
  map (fun i => lo + Z.of_nat i) (seq 0 n).

Definition isLeap (y : Z) : bool :=
  (y mod 4 =? 0) && (negb (y mod 100 =? 0) || (y mod 400 =? 0)).

Definition daysIn (y m : Z) : Z :=
  if m =? 2 then (if isLeap y then 29 else 28)
  else if (m =? 4) || (m =? 6) || (m =? 9) || (m =? 11) then 30
  else 31.

(** A civil date and a clock time that need no normalisation. *)
Definition validDate (y m d : Z) : Prop :=
  1 <= m <= 12 /\ 1 <= d <= daysIn y m.

Definition validClock (h mi s : Z) : Prop :=
  0 <= h <= 23 /\ 0 <= mi <= 59 /\ 0 <= s <= 59.

(** The length of one day. *)
Definition oneDay : GoTime.Duration := GoTime.Hour * 24.

(** What the token loop has recorded: the repeat flags, the date fields
    and the clock fields. *)
Definition flagsOf (v : vars) : bool * bool * bool * bool * bool :=
  (isRepeat v, isHourRepeat v, isDayRepeat v, isWeekRepeat v, isMonthRepeat v).

Definition dateOf (v : vars) : Z * Z * Z := (year v, month v, day v).

Definition clockOf (v : vars) : Z * Z * Z := (hour v, minute v, second v).

(** The candidate occurrence that each projector builds from [now] and the
    anchor fields, before any day-advancing. *)
Definition hourAnchor (now : GoTime.Time) (minute second : Z) : GoTime.Time :=
  let '(y, m, d) := GoTime.Time_Date now in
  let '(h, _, _) := GoTime.Time_Clock now in
  GoTime.Date y m d h minute second.

Definition dayAnchor (now : GoTime.Time) (hour minute second : Z)
  : GoTime.Time :=
  let '(y, m, d) := GoTime.Time_Date now in
  GoTime.Date y m d hour minute second.

Definition monthAnchor (now : GoTime.Time) (day hour minute second : Z)
  : GoTime.Time :=
  let '(y, m, _) := GoTime.Time_Date now in
  GoTime.Date y m day hour minute second.

(** The conditions of the two day-advancing loops. *)
Definition weekStop (dayOfWeek : GoTime.Weekday) (t : GoTime.Time) : bool :=
  GoTime.weekdayEqb (GoTime.Time_Weekday t) dayOfWeek.

Definition monthStop (day : Z) (t : GoTime.Time) : bool :=
  GoTime.Time_Day t =? day.

(** The plan that [parsePlan] returns for a start time and a state. *)
Definition planOf (input : string) (r : GoTime.Time * state) : Plan :=
  mkPlan (fst r) (commentOf input) (snd r).

(** The values that [fmt.Sscanf] reads for [k] verbs [%d] separated by the
    byte [sep], and whether it reports an error; this does not depend on
    where the values are stored. *)
Fixpoint scanRestValues (sep : ascii) (k : nat) (s : string)
  : list Z * bool :=
  match k with
  | O => ([], false)
  | S k' =>
      match s with
      | String c cs =>
          if Ascii.eqb c sep then
            match GoFmt.scanInt cs with
            | Some (x, rest) =>
                let '(xs, err) := scanRestValues sep k' rest in (x :: xs, err)
            | None => ([], true)
            end
          else ([], true)
      | EmptyString => ([], true)
      end
  end.

Definition scanValues (s : string) (sep : ascii) (k : nat) : list Z * bool :=
  match k with
  | O => ([], false)
  | S k' =>
      match GoFmt.scanInt s with
      | Some (x, rest) =>
          let '(xs, err) := scanRestValues sep k' rest in (x :: xs, err)
      | None => ([], true)
      end
  end.

(** Storing the values [vals] through the pointers [ptrs], in order. *)
Fixpoint storeAll {S : Type} (ptrs : list (Z -> S -> S)) (vals : list Z)
         (st : S) : S :=
  match ptrs, vals with
  | p :: ps, x :: xs => storeAll ps xs (p x st)
  | _, _ => st
  end.

(** What one pass of the switch may do to the variables. *)
Inductive stepKind (v v' : vars) : Prop :=
| stepKeep : flagsOf v' = flagsOf v -> stepKind v v'
| stepRepeat : v' = set_isRepeat true v -> stepKind v v'
| stepHour :
    isRepeat v = true -> v' = set_isHourRepeat true v -> stepKind v v'
| stepDay :
    isRepeat v = true -> v' = set_isDayRepeat true v -> stepKind v v'
| stepWeek :
    isRepeat v = true ->
    (exists v1, flagsOf v1 = flagsOf v /\ v' = set_isWeekRepeat true v1) ->
    stepKind v v'
| stepMonth :
    isRepeat v = true ->
    (exists v1, flagsOf v1 = flagsOf v /\ v' = set_isMonthRepeat true v1) ->
    stepKind v v'.

(** Flags that are set in [v] are set in [v']. *)
Definition flagsLe (v v' : vars) : Prop :=
  (isRepeat v = true -> isRepeat v' = true) /\
  (isHourRepeat v = true -> isHourRepeat v' = true) /\
  (isDayRepeat v = true -> isDayRepeat v' = true) /\
  (isWeekRepeat v = true -> isWeekRepeat v' = true) /\
  (isMonthRepeat v = true -> isMonthRepeat v' = true).

(** The duration that a projector works with, for a cadence whose period
    is [limit]: [if duration > limit { duration = limit }]. *)
Definition clampTo (limit d : GoTime.Duration) : GoTime.Duration :=
  if limit <? d then limit else d.

(* ===================================================================== *)
(** * Facts about the library models *)
(* ===================================================================== *)

Section Calendar.
Import GoTime.

Lemma dayOfDoy_range doy : 1 <= dayOfDoy doy <= 31.
Proof.
  unfold dayOfDoy, monthStart, monthOfDoy.
  Z.div_mod_to_equations; lia.
Qed.

Lemma Time_Day_range t : 1 <= Time_Day t <= 31.
Proof.
  unfold Time_Day, Time_Date, civilFromDays; simpl.
  apply dayOfDoy_range.
Qed.

Lemma Time_Day_doyOf t : Time_Day t = dayOfDoy (doyOf (unixDays t)).
Proof. reflexivity. Qed.

Lemma yearOfEra_bounds doe :
  0 <= doe < 146097 ->
  0 <= yearOfEra doe <= 399 /\
  yearStart (yearOfEra doe) <= doe < yearEnd (yearOfEra doe).
Proof.
  unfold yearEnd, yearOfEra, yearStart. intros.
  Z.div_mod_to_equations; lia.
Qed.

Lemma yearEnd_le_start a b :
  0 <= a < b -> b <= 399 -> yearEnd a <= yearStart b.
Proof.
  unfold yearEnd, yearStart. intros.
  Z.div_mod_to_equations; lia.
Qed.

Lemma year_length a :
  0 <= a <= 399 -> 365 <= yearEnd a - yearStart a <= 366.
Proof.
  unfold yearEnd, yearStart. intros.
  Z.div_mod_to_equations; lia.
Qed.

(** A day of the era lies in exactly one year of the era. *)
Lemma yearOfEra_unique doe y :
  0 <= y <= 399 -> yearStart y <= doe < yearEnd y -> yearOfEra doe = y.
Proof.
  intros Hy Hin.
  assert (Hdoe : 0 <= doe < 146097).
  { pose proof (year_length y Hy).
    assert (0 <= yearStart y)
      by (unfold yearStart; Z.div_mod_to_equations; lia).
    assert (yearEnd y <= 146097)
      by (unfold yearEnd, yearStart; Z.div_mod_to_equations; lia).
    lia. }
  destruct (yearOfEra_bounds doe Hdoe) as [Hy' [Hlo Hhi]].
  destruct (Z.lt_trichotomy (yearOfEra doe) y) as [Hlt | [Heq | Hgt]]; auto.
  - pose proof (yearEnd_le_start (yearOfEra doe) y). lia.
  - pose proof (yearEnd_le_start y (yearOfEra doe)). lia.
Qed.

Lemma dayOfYear_range doe : 0 <= doe < 146097 -> 0 <= dayOfYear doe <= 365.
Proof.
  intros H. unfold dayOfYear.
  destruct (yearOfEra_bounds doe H) as [Hy [Hlo Hhi]].
  pose proof (year_length (yearOfEra doe) Hy). lia.
Qed.

Lemma dayOfYear_step doe :
  0 <= doe < 146096 ->
  dayOfYear (doe + 1) = dayOfYear doe + 1 \/
  (dayOfYear (doe + 1) = 0 /\ 364 <= dayOfYear doe).
Proof.
  intros H. unfold dayOfYear.
  destruct (yearOfEra_bounds doe) as [Hy [Hlo Hhi]]; [lia|].
  destruct (yearOfEra_bounds (doe + 1)) as [Hy' [Hlo' Hhi']]; [lia|].
  pose proof (year_length (yearOfEra doe) Hy) as HL.
  destruct (Z.lt_trichotomy (yearOfEra doe) (yearOfEra (doe + 1)))
    as [Hlt | [Heq | Hgt]].
  - pose proof (yearEnd_le_start (yearOfEra doe) (yearOfEra (doe + 1))).
    right. lia.
  - rewrite Heq in *. left. lia.
  - pose proof (yearEnd_le_start (yearOfEra (doe + 1)) (yearOfEra doe)).
    lia.
Qed.

Lemma doyOf_range z : 0 <= doyOf z <= 365.
Proof.
  unfold doyOf. apply dayOfYear_range.
  unfold daysPerEra. apply Z.mod_pos_bound. lia.
Qed.

(** From one day to the next the day of the year goes up by one or, at
    the end of a year, falls back to zero. *)
Lemma doyOf_step z :
  doyOf (z + 1) = doyOf z + 1 \/ (doyOf (z + 1) = 0 /\ 364 <= doyOf z).
Proof.
  unfold doyOf, daysPerEra, epochShift.
  set (doe := (z + 719468) mod 146097).
  assert (Hdoe : 0 <= doe < 146097) by (apply Z.mod_pos_bound; lia).
  destruct (Z.eq_dec doe 146096) as [Hlast | Hnot].
  - right.
    replace ((z + 1 + 719468) mod 146097) with 0.
    + rewrite Hlast. split; [reflexivity | vm_compute; discriminate].
    + subst doe. Z.div_mod_to_equations; lia.
  - replace ((z + 1 + 719468) mod 146097) with (doe + 1).
    + apply dayOfYear_step. lia.
    + subst doe. Z.div_mod_to_equations; lia.
Qed.

End Calendar.


Section Search.
Import GoTime.

Lemma zrange_In lo n z : lo <= z < lo + Z.of_nat n -> In z (zrange lo n).
Proof.
  intros H. unfold zrange. apply in_map_iff.
  exists (Z.to_nat (z - lo)). split; [lia|].
  apply in_seq. lia.
Qed.

(** Every day of the month from 1 to 31 comes up within 60 days, from any
    day of a year of either length. *)
Lemma reaches_all :
  forallb (fun k => forallb (reaches 60 k) (zrange 0 366)) (zrange 1 31) = true.
Proof. vm_compute. reflexivity. Qed.

Lemma reaches_60 k doy :
  1 <= k <= 31 -> 0 <= doy <= 365 -> reaches 60 k doy = true.
Proof.
  intros Hk Hd. pose proof reaches_all as H.
  rewrite forallb_forall in H.
  specialize (H k (zrange_In 1 31 k ltac:(lia))).
  rewrite forallb_forall in H. apply H. apply zrange_In. lia.
Qed.

Lemma reaches_sound fuel : forall k z,
  reaches fuel k (doyOf z) = true ->
  exists n, (n <= fuel)%nat /\ dayOfDoy (doyOf (z + Z.of_nat n)) = k.
Proof.
  induction fuel as [|fuel IH]; intros k z H; simpl in H.
  - destruct (dayOfDoy (doyOf z) =? k) eqn:E; [|discriminate].
    exists 0%nat. split; [lia|]. rewrite Z.add_0_r. lia.
  - destruct (dayOfDoy (doyOf z) =? k) eqn:E.
    + exists 0%nat. split; [lia|]. rewrite Z.add_0_r. lia.
    + assert (Hnext : reaches fuel k (doyOf (z + 1)) = true).
      { pose proof (doyOf_step z) as Hs. pose proof (doyOf_range z) as Hr.
        destruct (doyOf z <? 364) eqn:E1.
        - apply Z.ltb_lt in E1. destruct Hs as [-> | [? ?]]; [assumption | lia].
        - apply Z.ltb_ge in E1. destruct (doyOf z =? 364) eqn:E2.
          + apply Z.eqb_eq in E2.
            destruct (reaches fuel k 365) eqn:Ha; [|discriminate].
            destruct Hs as [-> | [-> _]]; [rewrite E2; assumption | assumption].
          + apply Z.eqb_neq in E2.
            destruct Hs as [Hs | [-> _]]; [|assumption].
            pose proof (doyOf_range (z + 1)). lia. }
      destruct (IH k (z + 1) Hnext) as [n [Hn Hd]].
      exists (S n). split; [lia|].
      replace (z + Z.of_nat (S n)) with (z + 1 + Z.of_nat n) by lia. exact Hd.
Qed.

Lemma unixDays_Add_day t : unixDays (Add t oneDay) = unixDays t + 1.
Proof.
  unfold unixDays, unixSeconds, Add, secondsPerDay.
  change oneDay with (86400 * 1000000000).
  change Second with 1000000000.
  rewrite Z.div_add by lia.
  replace (t / 1000000000 + 86400) with (t / 1000000000 + 1 * 86400) by lia.
  rewrite Z.div_add by lia. reflexivity.
Qed.

Lemma unixDays_Add_days (n : nat) t :
  unixDays (t + Z.of_nat n * oneDay) = unixDays t + Z.of_nat n.
Proof.
  induction n as [|n IH].
  - change (Z.of_nat 0) with 0. rewrite Z.mul_0_l, !Z.add_0_r. reflexivity.
  - replace (t + Z.of_nat (S n) * oneDay)
      with (Add (t + Z.of_nat n * oneDay) oneDay)
      by (unfold Add; change oneDay with 86400000000000; lia).
    rewrite unixDays_Add_day, IH. lia.
Qed.

Lemma oneDay_pos : 0 < oneDay.
Proof. reflexivity. Qed.

(** ** The day-advancing loop *)

Lemma advanceUntil_hit stop : forall fuel n t,
  (n <= fuel)%nat ->
  stop (t + Z.of_nat n * oneDay) = true ->
  exists m, (m <= n)%nat /\
            advanceUntil fuel stop t = Ok (t + Z.of_nat m * oneDay) /\
            stop (t + Z.of_nat m * oneDay) = true.
Proof.
  induction fuel as [|fuel IH]; intros n t Hn Hs.
  - assert (n = 0%nat) by lia. subst n. exists 0%nat. simpl in *.
    rewrite Z.add_0_r in *. rewrite Hs. auto.
  - simpl. destruct (stop t) eqn:E.
    + exists 0%nat. simpl. rewrite Z.add_0_r. repeat split; auto. lia.
    + destruct n as [|n].
      * simpl in Hs. rewrite Z.add_0_r in Hs. congruence.
      * destruct (IH n (Add t (Hour * 24))) as [m [Hm [Hr Hst]]]; [lia| |].
        { unfold Add. fold oneDay.
          replace (t + oneDay + Z.of_nat n * oneDay)
            with (t + Z.of_nat (S n) * oneDay)
            by (change oneDay with 86400000000000; lia).
          exact Hs. }
        exists (S m). split; [lia|].
        unfold Add in *. fold oneDay in *.
        replace (t + Z.of_nat (S m) * oneDay)
          with (t + oneDay + Z.of_nat m * oneDay)
          by (change oneDay with 86400000000000; lia).
        auto.
Qed.

Lemma advanceUntil_never stop :
  (forall t, stop t = false) ->
  forall fuel t, advanceUntil fuel stop t = OutOfFuel.
Proof.
  intros Hs. induction fuel as [|fuel IH]; intros t; simpl; rewrite Hs; auto.
Qed.


(** The loop either stops at some instant or is still running at the end
    of the fuel. *)
Lemma advanceUntil_cases stop : forall fuel t,
  (exists t', advanceUntil fuel stop t = Ok t') \/
  advanceUntil fuel stop t = OutOfFuel.
Proof.
  induction fuel as [|fuel IH]; intros t; simpl; destruct (stop t); eauto.
Qed.

(** Day [day] of the month, for [day] from 1 to 31, is found within 60 steps. *)
Lemma month_day_found day t :
  1 <= day <= 31 ->
  exists n, (n <= 60)%nat /\ Time_Day (t + Z.of_nat n * oneDay) = day.
Proof.
  intros Hd.
  destruct (reaches_sound 60 day (unixDays t)) as [n [Hn H]].
  { apply reaches_60; [lia | apply doyOf_range]. }
  exists n. split; [assumption|].
  rewrite Time_Day_doyOf, unixDays_Add_days. exact H.
Qed.

Lemma weekdayOfIndex_Index w : weekdayOfIndex (weekdayIndex w) = w.
Proof. destruct w; reflexivity. Qed.

Lemma weekdayIndex_range w : 0 <= weekdayIndex w <= 6.
Proof. destruct w; simpl; lia. Qed.

Lemma weekdayIndex_OfIndex i :
  0 <= i <= 6 -> weekdayIndex (weekdayOfIndex i) = i.
Proof.
  intros H.
  assert (i = 0 \/ i = 1 \/ i = 2 \/ i = 3 \/ i = 4 \/ i = 5 \/ i = 6)
    as Hc by lia.
  destruct Hc as [->|[->|[->|[->|[->|[->| ->]]]]]]; reflexivity.
Qed.

Lemma week_day_found w t :
  exists n, (n <= 6)%nat /\
    weekdayEqb (Time_Weekday (t + Z.of_nat n * oneDay)) w = true.
Proof.
  exists (Z.to_nat ((weekdayIndex w - (unixDays t + 4)) mod 7)).
  pose proof (weekdayIndex_range w) as Hw.
  assert (Hm : 0 <= (weekdayIndex w - (unixDays t + 4)) mod 7 < 7)
    by (apply Z.mod_pos_bound; lia).
  split; [lia|].
  unfold weekdayEqb, Time_Weekday. rewrite unixDays_Add_days.
  rewrite Z2Nat.id by lia.
  rewrite weekdayIndex_OfIndex by (Z.div_mod_to_equations; lia).
  apply Z.eqb_eq. Z.div_mod_to_equations; lia.
Qed.

End Search.


Section RoundTrip.
Import GoTime.

Lemma leap_year_length y :
  isLeap y = true ->
  yearEnd ((y - 1) mod 400) - yearStart ((y - 1) mod 400) = 366.
Proof.
  unfold isLeap, yearEnd, yearStart. intros H.
  apply andb_prop in H. destruct H as [H4 H].
  apply Z.eqb_eq in H4. apply orb_prop in H.
  destruct H as [H | H].
  - apply negb_true_iff, Z.eqb_neq in H. Z.div_mod_to_equations; lia.
  - apply Z.eqb_eq in H. Z.div_mod_to_equations; lia.
Qed.

Lemma month_cases m : 1 <= m <= 12 ->
  m = 1 \/ m = 2 \/ m = 3 \/ m = 4 \/ m = 5 \/ m = 6 \/
  m = 7 \/ m = 8 \/ m = 9 \/ m = 10 \/ m = 11 \/ m = 12.
Proof. lia. Qed.

(** Within the March-based year a valid month and day are recovered from
    the day of the year. *)
Lemma doy_roundtrip y m d :
  validDate y m d ->
  let mp := (m + 9) mod 12 in
  let doy := monthStart mp + (d - 1) in
  monthOfDoy doy = mp /\ dayOfDoy doy = d /\ 0 <= doy <= 365 /\
  (if mp <? 10 then mp + 3 else mp - 9) = m /\
  (doy = 365 -> m = 2 /\ isLeap y = true).
Proof.
  intros [Hm Hd]. 
  destruct (month_cases m Hm)
    as [->|[->|[->|[->|[->|[->|[->|[->|[->|[->|[->| ->]]]]]]]]]]];
    unfold daysIn in Hd; simpl in Hd; cbv zeta;
    try (destruct (isLeap y) eqn:EL);
    unfold dayOfDoy, monthOfDoy, monthStart;
    match goal with
    | |- context [(?a + 9) mod 12] =>
        let v := eval vm_compute in ((a + 9) mod 12) in
        change ((a + 9) mod 12) with v
    end; cbv beta;
    (repeat split; try reflexivity; try discriminate;
     try (Z.div_mod_to_equations; lia)).
Qed.

Lemma civil_roundtrip y m d :
  validDate y m d -> civilFromDays (daysFromCivil y m d) = (y, m, d).
Proof.
  intros Hv. pose proof (doy_roundtrip y m d Hv) as Hr. cbv zeta in Hr.
  destruct Hr as [Hmp [Hdd [Hdoy [Hm Hleap]]]].
  destruct Hv as [Hmr Hdr].
  unfold daysFromCivil, civilFromDays.
  set (y' := if m <=? 2 then y - 1 else y).
  set (mp := (m + 9) mod 12) in *.
  set (doy := monthStart mp + (d - 1)) in *.
  set (yoe := y' mod 400).
  assert (Hyoe : 0 <= yoe <= 399) by (subst yoe; Z.div_mod_to_equations; lia).
  pose proof (year_length yoe Hyoe) as HL.
  assert (Hlen : doy < yearEnd yoe - yearStart yoe).
  { destruct (Z.eq_dec doy 365) as [E|E]; [|lia].
    destruct (Hleap E) as [-> HLy].
    subst yoe y'. simpl. rewrite (leap_year_length y HLy). lia. }
  assert (Hys : 0 <= yearStart yoe /\ yearEnd yoe <= 146097).
  { unfold yearEnd, yearStart. Z.div_mod_to_equations; lia. }
  set (doe := yearStart yoe + doy).
  replace (y' / 400 * daysPerEra + doe - epochShift + epochShift)
    with (doe + y' / 400 * daysPerEra) by lia.
  unfold daysPerEra.
  rewrite Z.div_add by lia. rewrite Z.mod_add by lia.
  rewrite (Z.div_small doe) by lia. rewrite (Z.mod_small doe) by lia.
  assert (Hy : yearOfEra doe = yoe) by (apply yearOfEra_unique; lia).
  unfold dayOfYear. rewrite Hy.
  replace (doe - yearStart yoe) with doy by lia.
  rewrite Hmp, Hdd, Hm.
  f_equal. f_equal.
  subst yoe y'. destruct (m <=? 2); Z.div_mod_to_equations; lia.
Qed.

Lemma Date_unixSeconds y m d h mi s :
  1 <= m <= 12 ->
  unixSeconds (Date y m d h mi s)
  = daysFromCivil y m d * secondsPerDay + h * 3600 + mi * 60 + s.
Proof.
  intros Hm. unfold unixSeconds, Date.
  replace ((m - 1) / 12) with 0 by (Z.div_mod_to_equations; lia).
  replace ((m - 1) mod 12 + 1) with m by (Z.div_mod_to_equations; lia).
  rewrite Z.add_0_r. apply Z.div_mul. discriminate.
Qed.

Lemma Time_Date_Date y m d h mi s :
  validDate y m d -> validClock h mi s ->
  Time_Date (Date y m d h mi s) = (y, m, d).
Proof.
  intros Hv Hc. unfold Time_Date, unixDays.
  rewrite Date_unixSeconds by apply Hv.
  replace ((daysFromCivil y m d * secondsPerDay + h * 3600 + mi * 60 + s)
           / secondsPerDay)
    with (daysFromCivil y m d).
  - apply civil_roundtrip; assumption.
  - unfold validClock in Hc. unfold secondsPerDay.
    Z.div_mod_to_equations; lia.
Qed.

Lemma Time_Clock_Date y m d h mi s :
  1 <= m <= 12 -> validClock h mi s ->
  Time_Clock (Date y m d h mi s) = (h, mi, s).
Proof.
  intros Hm Hc. unfold Time_Clock. rewrite Date_unixSeconds by assumption.
  unfold validClock in Hc. unfold secondsPerDay.
  replace ((daysFromCivil y m d * 86400 + h * 3600 + mi * 60 + s) mod 86400)
    with (h * 3600 + mi * 60 + s) by (Z.div_mod_to_equations; lia).
  f_equal; [f_equal|]; Z.div_mod_to_equations; lia.
Qed.

End RoundTrip.


(* ===================================================================== *)
(** * Facts about the field parsers *)
(* ===================================================================== *)

Section Scanning.
Context {S : Type}.

Lemma scanRest_values sep : forall (ptrs : list (Z -> S -> S)) s st,
  GoFmt.scanRest sep ptrs s st
  = (Z.of_nat (List.length (fst (scanRestValues sep (List.length ptrs) s))),
     snd (scanRestValues sep (List.length ptrs) s),
     storeAll ptrs (fst (scanRestValues sep (List.length ptrs) s)) st).
Proof.
  induction ptrs as [|p ps IH]; intros s st; [reflexivity|].
  simpl. destruct s as [|c cs]; [reflexivity|].
  destruct (Ascii.eqb c sep); [|reflexivity].
  destruct (GoFmt.scanInt cs) as [[x rest]|]; [|reflexivity].
  rewrite IH. destruct (scanRestValues sep (List.length ps) rest) as [xs err].
  simpl. f_equal. f_equal. lia.
Qed.

Lemma Sscanf_values (ptrs : list (Z -> S -> S)) s sep st :
  GoFmt.Sscanf s sep ptrs st
  = (Z.of_nat (List.length (fst (scanValues s sep (List.length ptrs)))),
     snd (scanValues s sep (List.length ptrs)),
     storeAll ptrs (fst (scanValues s sep (List.length ptrs))) st).
Proof.
  destruct ptrs as [|p ps]; [reflexivity|].
  unfold GoFmt.Sscanf, scanValues. simpl List.length.
  destruct (GoFmt.scanInt s) as [[x rest]|]; [|reflexivity].
  rewrite scanRest_values.
  destruct (scanRestValues sep (List.length ps) rest) as [xs err].
  simpl. f_equal. f_equal. lia.
Qed.

Lemma scanRestValues_length sep : forall k s,
  (List.length (fst (scanRestValues sep k s)) <= k)%nat.
Proof.
  induction k as [|k IH]; intros s; simpl; [lia|].
  destruct s as [|c cs]; simpl; [lia|].
  destruct (Ascii.eqb c sep); simpl; [|lia].
  destruct (GoFmt.scanInt cs) as [[x rest]|]; simpl; [|lia].
  specialize (IH rest). destruct (scanRestValues sep k rest); simpl in *. lia.
Qed.

(** [Sscanf] stores at most one item per verb. *)
Lemma scanValues_length s sep k :
  (List.length (fst (scanValues s sep k)) <= k)%nat.
Proof.
  destruct k as [|k]; simpl; [lia|].
  destruct (GoFmt.scanInt s) as [[x rest]|]; simpl; [|lia].
  pose proof (scanRestValues_length sep k rest).
  destruct (scanRestValues sep k rest); simpl in *. lia.
Qed.

(** An observation that no pointer's store changes is not changed. *)
Lemma storeAll_obs {T : Type} (f : S -> T) : forall (ptrs : list (Z -> S -> S)),
  (forall p, In p ptrs -> forall x st, f (p x st) = f st) ->
  forall vals st, f (storeAll ptrs vals st) = f st.
Proof.
  induction ptrs as [|p ps IH]; intros Hp vals st; [reflexivity|].
  destruct vals as [|x xs]; [reflexivity|]. simpl.
  rewrite IH; [apply Hp; left; reflexivity|].
  intros q Hq. apply Hp. right. exact Hq.
Qed.

End Scanning.

Ltac destruct_Sscanf :=
  rewrite Sscanf_values;
  match goal with
  | |- context [scanValues ?s ?sep ?k] =>
      let vals := fresh "vals" in
      let err := fresh "err" in
      let E := fresh "Escan" in
      destruct (scanValues s sep k) as [vals err] eqn:E; cbn [fst snd]
  end.

Ltac obs_ptrs :=
  let p := fresh "p" in
  let H := fresh "H" in
  intros p H; simpl in H;
  repeat (destruct H as [<- | H]; [intros; reflexivity|]);
  destruct H.

Lemma parseDate_flags now spec v v' :
  parseDate now spec v = Ok v' ->
  flagsOf v' = flagsOf v /\ clockOf v' = clockOf v /\
  duration v' = duration v /\ dayOfWeek v' = dayOfWeek v.
Proof.
  unfold parseDate.
  set (obs := fun v => (flagsOf v, clockOf v, duration v, dayOfWeek v)).
  assert (Hgoal : forall a b, obs a = obs b ->
            flagsOf a = flagsOf b /\ clockOf a = clockOf b /\
            duration a = duration b /\ dayOfWeek a = dayOfWeek b).
  { unfold obs. intros a b E. injection E; intros.
    unfold flagsOf, clockOf, dateOf; repeat split; congruence. }
  intros H. apply Hgoal.
  destruct (GoStrings.Count spec "-" =? 2).
  - revert H. destruct_Sscanf.
    destruct (negb _ || err); [discriminate|].
    pose proof (storeAll_obs obs [set_year; set_month; set_day]
                  ltac:(obs_ptrs) vals v) as Hobs.
    destruct (year _ <? 1000); intros H; inversion H; subst; rewrite <- Hobs;
      reflexivity.
  - destruct (GoStrings.Count spec "-" =? 1).
    + revert H. destruct_Sscanf.
      destruct (negb _ || err); [discriminate|].
      pose proof (storeAll_obs obs [set_month; set_day]
                    ltac:(obs_ptrs) vals v) as Hobs.
      intros H; inversion H; subst. rewrite <- Hobs. reflexivity.
    + inversion H; subst. reflexivity.
Qed.

Lemma parseTime_obs spec v v' :
  parseTime spec v = Ok v' ->
  flagsOf v' = flagsOf v /\ dateOf v' = dateOf v /\
  duration v' = duration v /\ dayOfWeek v' = dayOfWeek v.
Proof.
  unfold parseTime.
  set (obs := fun v => (flagsOf v, dateOf v, duration v, dayOfWeek v)).
  assert (Hgoal : forall a b, obs a = obs b ->
            flagsOf a = flagsOf b /\ dateOf a = dateOf b /\
            duration a = duration b /\ dayOfWeek a = dayOfWeek b).
  { unfold obs. intros a b E. injection E; intros.
    unfold flagsOf, clockOf, dateOf; repeat split; congruence. }
  intros H. apply Hgoal.
  destruct (GoStrings.Count spec ":" =? 2).
  - revert H. destruct_Sscanf.
    destruct (negb _ || err); [discriminate|].
    intros H; inversion H; subst.
    apply (storeAll_obs obs [set_hour; set_minute; set_second]). obs_ptrs.
  - destruct (GoStrings.Count spec ":" =? 1).
    + revert H. destruct_Sscanf.
      destruct (negb _ || err); [discriminate|].
      intros H; inversion H; subst.
      apply (storeAll_obs obs [set_hour; set_minute]). obs_ptrs.
    + inversion H; subst. reflexivity.
Qed.

Lemma parseMinuteSecond_obs spec v v' :
  parseMinuteSecond spec v = Ok v' ->
  flagsOf v' = flagsOf v /\ dateOf v' = dateOf v /\
  duration v' = duration v /\ dayOfWeek v' = dayOfWeek v.
Proof.
  unfold parseMinuteSecond.
  set (obs := fun v => (flagsOf v, dateOf v, duration v, dayOfWeek v)).
  assert (Hgoal : forall a b, obs a = obs b ->
            flagsOf a = flagsOf b /\ dateOf a = dateOf b /\
            duration a = duration b /\ dayOfWeek a = dayOfWeek b).
  { unfold obs. intros a b E. injection E; intros.
    unfold flagsOf, clockOf, dateOf; repeat split; congruence. }
  intros H. apply Hgoal.
  destruct (GoStrings.Contains spec ":").
  - revert H. destruct_Sscanf.
    destruct (negb _ || err); [discriminate|].
    intros H; inversion H; subst.
    apply (storeAll_obs obs [set_minute; set_second]). obs_ptrs.
  - revert H. destruct_Sscanf.
    destruct (negb _ || err); [discriminate|].
    intros H; inversion H; subst.
    apply (storeAll_obs obs [set_minute]). obs_ptrs.
Qed.

Lemma parseDuration_obs spec v v' :
  parseDuration spec v = Ok v' ->
  flagsOf v' = flagsOf v /\ dateOf v' = dateOf v /\
  clockOf v' = clockOf v /\ dayOfWeek v' = dayOfWeek v.
Proof.
  unfold parseDuration.
  destruct (durationGroups spec) as [[g1 g2]|]; [|discriminate].
  destruct (GoStrconv.Atoi g1); [|discriminate].
  destruct g2 as [|c g2]; [discriminate|].
  repeat match goal with
         | |- context [if ?b then _ else _] => destruct b
         end; intros H; inversion H; subst; auto.
Qed.

Lemma parseDayOfWeek_obs spec v v' :
  parseDayOfWeek spec v = Ok v' ->
  flagsOf v' = flagsOf v /\ dateOf v' = dateOf v /\
  clockOf v' = clockOf v /\ duration v' = duration v.
Proof.
  unfold parseDayOfWeek.
  repeat match goal with
         | |- context [if ?b then _ else _] => destruct b
         end; intros H; inversion H; subst; auto.
Qed.

Lemma parseDayOfMonth_obs spec v v' :
  parseDayOfMonth spec v = Ok v' ->
  flagsOf v' = flagsOf v /\ clockOf v' = clockOf v /\
  duration v' = duration v /\ dayOfWeek v' = dayOfWeek v.
Proof.
  unfold parseDayOfMonth.
  destruct (String.eqb _ _); [discriminate|].
  destruct (GoStrconv.Atoi _); [|discriminate].
  intros H; inversion H; subst; auto.
Qed.


(* ===================================================================== *)
(** * Facts about the token loop *)
(* ===================================================================== *)

Lemma bind_Ok {A B : Type} (r : result A) (k : A -> result B) b :
  bind r k = Ok b -> exists a, r = Ok a /\ k a = Ok b.
Proof. destruct r; simpl; intros H; try discriminate. eauto. Qed.

Lemma parseSpecs_app now : forall l1 l2 v,
  parseSpecs now (l1 ++ l2) v
  = bind (parseSpecs now l1 v) (fun v1 => parseSpecs now l2 v1).
Proof.
  induction l1 as [|s l1 IH]; intros l2 v; simpl; [reflexivity|].
  destruct (classify now v s); simpl; auto.
Qed.

Lemma classify_kind now v spec v' :
  classify now v spec = Ok v' -> stepKind v v'.
Proof.
  unfold classify.
  repeat match goal with
         | |- context [if ?b then _ else _] =>
             let E := fresh "E" in destruct b eqn:E
         end; intros H;
    try (apply parseDate_flags in H; apply stepKeep; tauto);
    try (apply parseTime_obs in H; apply stepKeep; tauto);
    try (apply parseMinuteSecond_obs in H; apply stepKeep; tauto);
    try (apply parseDuration_obs in H; apply stepKeep; tauto);
    try (inversion H; subst; apply stepKeep; reflexivity).
  - inversion H; subst. apply stepRepeat; reflexivity.
  - apply andb_prop in E2. inversion H; subst. apply stepHour; tauto.
  - apply andb_prop in E3. inversion H; subst. apply stepDay; tauto.
  - apply andb_prop in E4. apply bind_Ok in H. destruct H as [v1 [H1 H2]].
    apply parseDayOfWeek_obs in H1. inversion H2; subst.
    apply stepWeek; [tauto|]. exists v1. tauto.
  - apply andb_prop in E6. apply bind_Ok in H. destruct H as [v1 [H1 H2]].
    apply parseDayOfMonth_obs in H1. inversion H2; subst.
    apply stepMonth; [tauto|]. exists v1. tauto.
Qed.

Lemma flagsOf_eq v v' :
  flagsOf v' = flagsOf v ->
  isRepeat v' = isRepeat v /\ isHourRepeat v' = isHourRepeat v /\
  isDayRepeat v' = isDayRepeat v /\ isWeekRepeat v' = isWeekRepeat v /\
  isMonthRepeat v' = isMonthRepeat v.
Proof. unfold flagsOf. intros H. injection H; intros. tauto. Qed.

(** A flag that is set stays set. *)
Lemma classify_flagsLe now v spec v' :
  classify now v spec = Ok v' -> flagsLe v v'.
Proof.
  intros H. apply classify_kind in H. unfold flagsLe.
  destruct H as [H | H | _ H | _ H | _ [v1 [H1 H]] | _ [v1 [H1 H]]];
    try (apply flagsOf_eq in H; destruct H as (-> & -> & -> & -> & ->); tauto);
    try (subst v'; simpl; tauto);
    apply flagsOf_eq in H1; destruct H1 as (<- & <- & <- & <- & <-);
    subst v'; simpl; tauto.
Qed.

Lemma parseSpecs_flagsLe now : forall specs v v',
  parseSpecs now specs v = Ok v' -> flagsLe v v'.
Proof.
  induction specs as [|s specs IH]; intros v v' H; simpl in H.
  - inversion H; subst. unfold flagsLe; tauto.
  - apply bind_Ok in H. destruct H as [v1 [H1 H2]].
    apply classify_flagsLe in H1. apply IH in H2. unfold flagsLe in *. tauto.
Qed.

Lemma classify_every now v :
  classify now v "every" = Ok (set_isRepeat true v).
Proof.
  unfold classify.
  replace (GoRegexp.MatchString datePattern "every") with false by reflexivity.
  replace (GoRegexp.MatchString timePattern "every") with false by reflexivity.
  rewrite !andb_false_r. reflexivity.
Qed.

Lemma classify_hour now v :
  isRepeat v = true -> classify now v "hour" = Ok (set_isHourRepeat true v).
Proof.
  intros H. unfold classify. rewrite H. reflexivity.
Qed.

Lemma classify_day now v :
  isRepeat v = true -> classify now v "day" = Ok (set_isDayRepeat true v).
Proof.
  intros H. unfold classify. rewrite H. reflexivity.
Qed.

(** Without [every] the line stays out of repeat mode, and only a date
    token touches the date fields. *)
Lemma classify_nonRepeat now v spec v' :
  isRepeat v = false -> spec <> "every" ->
  classify now v spec = Ok v' ->
  flagsOf v' = flagsOf v /\
  (GoRegexp.MatchString datePattern spec = false -> dateOf v' = dateOf v).
Proof.
  intros Hr Hne. unfold classify. rewrite Hr. cbn [negb andb].
  destruct (GoRegexp.MatchString datePattern spec) eqn:Ed.
  { intros H. apply parseDate_flags in H. split; [tauto | discriminate]. }
  destruct (GoRegexp.MatchString timePattern spec) eqn:Et.
  { intros H. apply parseTime_obs in H. tauto. }
  destruct (String.eqb spec "every") eqn:Ee.
  { apply String.eqb_eq in Ee. contradiction. }
  rewrite !andb_false_r.
  repeat match goal with
         | |- context [if ?b then _ else _] =>
             let E := fresh "E" in destruct b eqn:E
         end; intros H;
    try (apply parseTime_obs in H; tauto);
    try (apply parseMinuteSecond_obs in H; tauto);
    try (apply parseDuration_obs in H; tauto);
    try (inversion H; subst; tauto).
Qed.

Lemma parseSpecs_nonRepeat now : forall specs v v',
  isRepeat v = false ->
  (forall s, In s specs -> s <> "every") ->
  parseSpecs now specs v = Ok v' ->
  flagsOf v' = flagsOf v /\
  ((forall s, In s specs -> GoRegexp.MatchString datePattern s = false) ->
   dateOf v' = dateOf v).
Proof.
  induction specs as [|s specs IH]; intros v v' Hr Hne H; simpl in H.
  - inversion H; subst. tauto.
  - apply bind_Ok in H. destruct H as [v1 [H1 H2]].
    apply classify_nonRepeat in H1; [|assumption|apply Hne; left; reflexivity].
    destruct H1 as [Hf Hd].
    assert (Hr1 : isRepeat v1 = false).
    { apply flagsOf_eq in Hf. destruct Hf as [-> _]. exact Hr. }
    apply IH in H2; [|assumption|intros; apply Hne; right; assumption].
    destruct H2 as [Hf2 Hd2]. split; [congruence|].
    intros Hnd. rewrite Hd2, Hd; auto.
    + apply Hnd. left. reflexivity.
    + intros; apply Hnd; right; assumption.
Qed.

Lemma parseSpecs_every now : forall specs v v',
  In "every" specs -> parseSpecs now specs v = Ok v' -> isRepeat v' = true.
Proof.
  induction specs as [|s specs IH]; intros v v' Hin H; simpl in *; [tauto|].
  apply bind_Ok in H. destruct H as [v1 [H1 H2]].
  destruct Hin as [-> | Hin].
  - rewrite classify_every in H1. inversion H1; subst.
    apply parseSpecs_flagsLe in H2. apply H2. reflexivity.
  - eapply IH; eauto.
Qed.

(** The line is in repeat mode exactly when [every] is one of its specs. *)
Lemma parseSpecs_isRepeat_iff now specs v :
  parseSpecs now specs zeroVars = Ok v ->
  (isRepeat v = true <-> In "every" specs).
Proof.
  intros H. split.
  - intros Hr. destruct (in_dec string_dec "every" specs) as [Hin | Hnin]; auto.
    apply parseSpecs_nonRepeat in H; [|reflexivity|].
    + destruct H as [Hf _]. apply flagsOf_eq in Hf.
      destruct Hf as [Hf _]. rewrite Hf in Hr. discriminate.
    + intros s Hs ->. contradiction.
  - intros Hin. eapply parseSpecs_every; eauto.
Qed.


(* ===================================================================== *)
(** * Facts about the repeat projectors *)
(* ===================================================================== *)

Section Projectors.
Import GoTime.

Lemma clampTo_min limit d : clampTo limit d = Z.min d limit.
Proof. unfold clampTo. destruct (limit <? d) eqn:E; lia. Qed.

Lemma clampTo_le limit d : clampTo limit d <= limit.
Proof. rewrite clampTo_min. lia. Qed.

Lemma clampTo_idem limit d : clampTo limit (clampTo limit d) = clampTo limit d.
Proof. rewrite !clampTo_min. lia. Qed.

Lemma between_iff t a b :
  between t a b = true <-> (a < t < b \/ t = a \/ t = b).
Proof.
  unfold between, After, Before, Equal.
  destruct (a <? t) eqn:E1, (t <? b) eqn:E2, (t =? a) eqn:E3, (t =? b) eqn:E4;
    simpl; split; intros H; try reflexivity; try discriminate; lia.
Qed.

Lemma hasLog_iff log a b :
  hasLog log a b = true <-> exists t, In t log /\ (a < t < b \/ t = a \/ t = b).
Proof.
  unfold hasLog. rewrite existsb_exists.
  split; intros [t [Hin H]]; exists t; (split; [assumption|]).
  - apply (between_iff t a b). unfold between. rewrite H. reflexivity.
  - apply (between_iff t a b) in H. unfold between in H.
    destruct (_ || _ || _); [reflexivity | discriminate].
Qed.

Lemma nextHourRepeat_eq now log d mi s :
  nextHourRepeat now log d mi s =
  let t := hourAnchor now mi s in
  let tEnd := Add t (clampTo Hour d) in
  if between now t tEnd && negb (hasLog log t tEnd) then (t, NOW)
  else if After now t then (Add t (Hour * 1), WAIT)
  else (t, WAIT).
Proof.
  unfold nextHourRepeat, hourAnchor, clampTo.
  destruct (Time_Date now) as [[y m] dd].
  destruct (Time_Clock now) as [[h mm] ss].
  reflexivity.
Qed.

Lemma nextDayRepeat_eq now log d h mi s :
  nextDayRepeat now log d h mi s =
  let t := dayAnchor now h mi s in
  let tEnd := Add t (clampTo (Hour * 24) d) in
  if between now t tEnd && negb (hasLog log t tEnd) then (t, NOW)
  else if After now t then (Add t (Hour * 24), WAIT)
  else (t, WAIT).
Proof.
  unfold nextDayRepeat, dayAnchor, clampTo.
  destruct (Time_Date now) as [[y m] dd]. reflexivity.
Qed.

Lemma nextWeekRepeat_eq fuel now log d w h mi s :
  nextWeekRepeat fuel now log d w h mi s =
  bind (advanceUntil fuel (weekStop w) (dayAnchor now h mi s)) (fun t =>
  let tEnd := Add t (clampTo (Hour * 24 * 7) d) in
  if between now t tEnd && negb (hasLog log t tEnd) then Ok (t, NOW)
  else if After now t then
    bind (advanceUntil fuel (weekStop w) (Add t (Hour * 24)))
         (fun t' => Ok (t', WAIT))
  else Ok (t, WAIT)).
Proof.
  unfold nextWeekRepeat, dayAnchor, clampTo.
  destruct (Time_Date now) as [[y m] dd]. reflexivity.
Qed.

Lemma nextMonthRepeat_eq fuel now log d day h mi s :
  nextMonthRepeat fuel now log d day h mi s =
  bind (advanceUntil fuel (monthStop day) (monthAnchor now day h mi s))
       (fun t =>
  let tEnd := Add t (clampTo (Hour * 24 * 30) d) in
  if between now t tEnd && negb (hasLog log t tEnd) then Ok (t, NOW)
  else if After now t then
    bind (advanceUntil fuel (monthStop day) (Add t (Hour * 24)))
         (fun t' => Ok (t', WAIT))
  else Ok (t, WAIT)).
Proof.
  unfold nextMonthRepeat, monthAnchor, clampTo.
  destruct (Time_Date now) as [[y m] dd]. reflexivity.
Qed.

(** The weekly search ends within six steps. *)
Lemma advanceUntil_week fuel w t :
  (6 <= fuel)%nat ->
  exists t', advanceUntil fuel (weekStop w) t = Ok t' /\
             weekStop w t' = true /\ t <= t'.
Proof.
  intros Hf. destruct (week_day_found w t) as [n [Hn Hs]].
  destruct (advanceUntil_hit (weekStop w) fuel n t) as [m [Hm [Hr Hst]]];
    [lia | exact Hs |].
  exists (t + Z.of_nat m * oneDay). repeat split; auto.
  pose proof oneDay_pos. nia.
Qed.

(** The monthly search for a day from 1 to 31 ends within sixty steps. *)
Lemma advanceUntil_month fuel day t :
  1 <= day <= 31 -> (60 <= fuel)%nat ->
  exists t', advanceUntil fuel (monthStop day) t = Ok t' /\
             monthStop day t' = true /\ t <= t'.
Proof.
  intros Hd Hf. destruct (month_day_found day t Hd) as [n [Hn Hs]].
  destruct (advanceUntil_hit (monthStop day) fuel n t) as [m [Hm [Hr Hst]]];
    [lia | unfold monthStop; apply Z.eqb_eq; exact Hs |].
  exists (t + Z.of_nat m * oneDay). repeat split; auto.
  pose proof oneDay_pos. nia.
Qed.

(** The monthly search for a day that no month has never ends. *)
Lemma advanceUntil_month_never fuel day t :
  day < 1 \/ 31 < day -> advanceUntil fuel (monthStop day) t = OutOfFuel.
Proof.
  intros Hd. apply advanceUntil_never. intros u. unfold monthStop.
  apply Z.eqb_neq. pose proof (Time_Day_range u). lia.
Qed.

Lemma nextMonthRepeat_never fuel now log d day h mi s :
  day < 1 \/ 31 < day ->
  nextMonthRepeat fuel now log d day h mi s = OutOfFuel.
Proof.
  intros Hd. rewrite nextMonthRepeat_eq.
  rewrite advanceUntil_month_never by assumption. reflexivity.
Qed.

Lemma nonRepeatState_spec now t e :
  (nonRepeatState now t e = NOW <-> t < now < e) /\
  (nonRepeatState now t e = EXPIRED <-> e < now) /\
  (nonRepeatState now t e = WAIT <-> now <= e /\ (now <= t \/ now = e)).
Proof.
  unfold nonRepeatState, After, Before.
  destruct (t <? now) eqn:E1, (now <? e) eqn:E2, (e <? now) eqn:E3; simpl;
    repeat split; intros; try discriminate; try reflexivity; try lia.
Qed.

End Projectors.


(* ===================================================================== *)
(** * The state of a plan *)
(* ===================================================================== *)

Section States.
Import GoTime.

(** At the two ends of its window a plan without repeat is waiting,
    whatever its (non-negative) duration. *)
Lemma nonRepeatState_at_bounds t d :
  0 <= d ->
  nonRepeatState t t (Add t d) = WAIT /\
  nonRepeatState (Add t d) t (Add t d) = WAIT.
Proof.
  intros Hd. split; apply nonRepeatState_spec; unfold Add; lia.
Qed.

(** Claim C1, evaluated on the code.  The schedule line
    [2024-01-01 08:00 ~2h] has the window from 08:00 to 10:00.  Resolved at
    08:00:00 sharp and at 10:00:00 sharp, the two instants that bound the
    window, its plan has state [WAIT]: the comparisons of the path without
    repeat are strict at both ends, where the claim has [NOW]. *)
Theorem C1_window_bounds_resolve_to_WAIT :
  forall (fuel : nat) (log : list Time),
    parsePlan fuel (Date 2024 1 1 8 0 0) log "2024-01-01 08:00 ~2h"
    = Ok (mkPlan (Date 2024 1 1 8 0 0) "" WAIT) /\
    parsePlan fuel (Date 2024 1 1 10 0 0) log "2024-01-01 08:00 ~2h"
    = Ok (mkPlan (Date 2024 1 1 8 0 0) "" WAIT).
Proof.
  intros fuel log. split; vm_compute; reflexivity.
Qed.

Lemma nextHourRepeat_state now log d mi s :
  snd (nextHourRepeat now log d mi s) = NOW \/
  snd (nextHourRepeat now log d mi s) = WAIT.
Proof.
  rewrite nextHourRepeat_eq. cbv zeta.
  destruct (between _ _ _ && negb _); [left; reflexivity|].
  destruct (After _ _); right; reflexivity.
Qed.

Lemma nextDayRepeat_state now log d h mi s :
  snd (nextDayRepeat now log d h mi s) = NOW \/
  snd (nextDayRepeat now log d h mi s) = WAIT.
Proof.
  rewrite nextDayRepeat_eq. cbv zeta.
  destruct (between _ _ _ && negb _); [left; reflexivity|].
  destruct (After _ _); right; reflexivity.
Qed.

Lemma nextWeekRepeat_state fuel now log d w h mi s t st :
  nextWeekRepeat fuel now log d w h mi s = Ok (t, st) ->
  st = NOW \/ st = WAIT.
Proof.
  rewrite nextWeekRepeat_eq. intros H.
  apply bind_Ok in H. destruct H as [t0 [_ H]]. cbv zeta in H.
  destruct (between _ _ _ && negb _); [inversion H; auto|].
  destruct (After _ _); [|inversion H; auto].
  apply bind_Ok in H. destruct H as [t1 [_ H]]. inversion H; auto.
Qed.

Lemma nextMonthRepeat_state fuel now log d day h mi s t st :
  nextMonthRepeat fuel now log d day h mi s = Ok (t, st) ->
  st = NOW \/ st = WAIT.
Proof.
  rewrite nextMonthRepeat_eq. intros H.
  apply bind_Ok in H. destruct H as [t0 [_ H]]. cbv zeta in H.
  destruct (between _ _ _ && negb _); [inversion H; auto|].
  destruct (After _ _); [|inversion H; auto].
  apply bind_Ok in H. destruct H as [t1 [_ H]]. inversion H; auto.
Qed.

Lemma nextWeekRepeat_total fuel now log d w h mi s :
  (6 <= fuel)%nat ->
  exists t st, nextWeekRepeat fuel now log d w h mi s = Ok (t, st).
Proof.
  intros Hf. rewrite nextWeekRepeat_eq.
  destruct (advanceUntil_week fuel w (dayAnchor now h mi s) Hf)
    as [t [-> _]].
  cbn [bind]. cbv zeta.
  destruct (between _ _ _ && negb _); [eauto|].
  destruct (After _ _); [|eauto].
  destruct (advanceUntil_week fuel w (Add t (Hour * 24)) Hf) as [t' [-> _]].
  cbn [bind]. eauto.
Qed.

Lemma nextMonthRepeat_total fuel now log d day h mi s :
  1 <= day <= 31 -> (60 <= fuel)%nat ->
  exists t st, nextMonthRepeat fuel now log d day h mi s = Ok (t, st).
Proof.
  intros Hd Hf. rewrite nextMonthRepeat_eq.
  destruct (advanceUntil_month fuel day (monthAnchor now day h mi s) Hd Hf)
    as [t [-> _]].
  cbn [bind]. cbv zeta.
  destruct (between _ _ _ && negb _); [eauto|].
  destruct (After _ _); [|eauto].
  destruct (advanceUntil_month fuel day (Add t (Hour * 24)) Hd Hf)
    as [t' [-> _]].
  cbn [bind]. eauto.
Qed.

(** Claim C10.  A repeat projector never yields [EXPIRED].  The hourly
    and the daily projector always return, with state [NOW] or [WAIT]; so
    does the weekly one once its loops may run six times, and the monthly
    one for a day from 1 to 31 once its loops may run sixty times; and
    whatever a weekly or monthly projection and a plan of a line in repeat
    mode returns has state [NOW] or [WAIT]. *)
Theorem C10_repeat_state_is_NOW_or_WAIT :
  (forall now log d mi s,
      snd (nextHourRepeat now log d mi s) = NOW \/
      snd (nextHourRepeat now log d mi s) = WAIT) /\
  (forall now log d h mi s,
      snd (nextDayRepeat now log d h mi s) = NOW \/
      snd (nextDayRepeat now log d h mi s) = WAIT) /\
  (forall fuel now log d w h mi s,
      (6 <= fuel)%nat ->
      exists t st, nextWeekRepeat fuel now log d w h mi s = Ok (t, st) /\
                   (st = NOW \/ st = WAIT)) /\
  (forall fuel now log d day h mi s,
      1 <= day <= 31 -> (60 <= fuel)%nat ->
      exists t st, nextMonthRepeat fuel now log d day h mi s = Ok (t, st) /\
                   (st = NOW \/ st = WAIT)) /\
  (forall fuel now log d w h mi s t st,
      nextWeekRepeat fuel now log d w h mi s = Ok (t, st) ->
      st = NOW \/ st = WAIT) /\
  (forall fuel now log d day h mi s t st,
      nextMonthRepeat fuel now log d day h mi s = Ok (t, st) ->
      st = NOW \/ st = WAIT) /\
  (forall fuel now log input v p,
      parseSpecs now (specsOf input) zeroVars = Ok v ->
      isRepeat v = true ->
      parsePlan fuel now log input = Ok p ->
      State p = NOW \/ State p = WAIT).
Proof.
  split; [exact nextHourRepeat_state|].
  split; [exact nextDayRepeat_state|].
  split.
  { intros fuel now log d w h mi s Hf.
    destruct (nextWeekRepeat_total fuel now log d w h mi s Hf) as [t [st H]].
    exists t, st. split; [exact H|]. eapply nextWeekRepeat_state; eauto. }
  split.
  { intros fuel now log d day h mi s Hd Hf.
    destruct (nextMonthRepeat_total fuel now log d day h mi s Hd Hf)
      as [t [st H]].
    exists t, st. split; [exact H|]. eapply nextMonthRepeat_state; eauto. }
  split; [exact nextWeekRepeat_state|].
  split; [exact nextMonthRepeat_state|].
  intros fuel now log input v p Hv Hr Hp.
  unfold parsePlan in Hp. rewrite Hv in Hp. cbn [bind] in Hp.
  apply bind_Ok in Hp. destruct Hp as [[t st] [Hres Hp]].
  inversion Hp; subst; clear Hp. cbn [State snd].
  unfold resolve in Hres. rewrite Hr in Hres. cbn [negb] in Hres.
  destruct (isHourRepeat v).
  { inversion Hres as [E].
    pose proof (nextHourRepeat_state now log (duration v) (minute v)
                  (second v)) as Hs.
    rewrite E in Hs. exact Hs. }
  destruct (isDayRepeat v).
  { inversion Hres as [E].
    pose proof (nextDayRepeat_state now log (duration v) (hour v) (minute v)
                  (second v)) as Hs.
    rewrite E in Hs. exact Hs. }
  destruct (isWeekRepeat v); [eapply nextWeekRepeat_state; eauto|].
  destruct (isMonthRepeat v); [eapply nextMonthRepeat_state; eauto|].
  discriminate.
Qed.

(** The theorem on a weekly and a monthly line and on the plan of
    [every mon 09:00 ~1h #weekly backup]. *)
Lemma C10_witness :
  (exists t st,
      nextWeekRepeat 6 (Date 2024 1 2 10 0 0) [] Hour Monday 9 0 0 = Ok (t, st)
      /\ (st = NOW \/ st = WAIT)) /\
  (exists t st,
      nextMonthRepeat 60 (Date 2024 2 1 10 0 0) [] Hour 31 10 0 0 = Ok (t, st)
      /\ (st = NOW \/ st = WAIT)) /\
  (WAIT = NOW \/ WAIT = WAIT) /\
  (WAIT = NOW \/ WAIT = WAIT) /\
  (State (mkPlan (Date 2024 1 8 9 0 0) "weekly backup" WAIT) = NOW \/
   State (mkPlan (Date 2024 1 8 9 0 0) "weekly backup" WAIT) = WAIT).
Proof.
  destruct C10_repeat_state_is_NOW_or_WAIT
    as (_ & _ & Hweek & Hmonth & Hw & Hm & Hplan).
  split; [apply Hweek; lia|].
  split; [apply Hmonth; lia|].
  split.
  { apply (Hw 6%nat (Date 2024 1 2 10 0 0) [] Hour Monday 9 0 0
              (Date 2024 1 8 9 0 0) WAIT).
    vm_compute. reflexivity. }
  split.
  { apply (Hm 60%nat (Date 2024 2 1 10 0 0) [] Hour 31 10 0 0
              (Date 2024 3 31 10 0 0) WAIT).
    vm_compute. reflexivity. }
  apply (Hplan 6%nat (Date 2024 1 2 10 0 0) []
           "every mon 09:00 ~1h #weekly backup"
           (mkVars 0 0 0 9 0 0 true false false true false Monday Hour)).
  - vm_compute. reflexivity.
  - reflexivity.
  - vm_compute. reflexivity.
Defined.

End States.


(* ===================================================================== *)
(** * The run log and the window of a repeat projector *)
(* ===================================================================== *)

Section Windows.
Import GoTime.






(** A projector only sees its duration through the clamp. *)
Lemma nextHourRepeat_clamped now log d mi s :
  nextHourRepeat now log d mi s
  = nextHourRepeat now log (Z.min d Hour) mi s.
Proof.
  rewrite !nextHourRepeat_eq, <- clampTo_min, clampTo_idem. reflexivity.
Qed.

Lemma nextDayRepeat_clamped now log d h mi s :
  nextDayRepeat now log d h mi s
  = nextDayRepeat now log (Z.min d (Hour * 24)) h mi s.
Proof.
  rewrite !nextDayRepeat_eq, <- clampTo_min, clampTo_idem. reflexivity.
Qed.

Lemma nextWeekRepeat_clamped fuel now log d w h mi s :
  nextWeekRepeat fuel now log d w h mi s
  = nextWeekRepeat fuel now log (Z.min d (Hour * 24 * 7)) w h mi s.
Proof.
  rewrite !nextWeekRepeat_eq, <- clampTo_min, clampTo_idem. reflexivity.
Qed.

Lemma nextMonthRepeat_clamped fuel now log d day h mi s :
  nextMonthRepeat fuel now log d day h mi s
  = nextMonthRepeat fuel now log (Z.min d (Hour * 24 * 30)) day h mi s.
Proof.
  rewrite !nextMonthRepeat_eq, <- clampTo_min, clampTo_idem. reflexivity.
Qed.

Lemma between_clamped now t limit d :
  0 <= limit ->
  between now t (Add t (clampTo limit d)) = true -> now <= t + limit.
Proof.
  intros Hl H. apply between_iff in H. pose proof (clampTo_le limit d).
  unfold Add in H. lia.
Qed.

Lemma nextHourRepeat_NOW now log d mi s t :
  nextHourRepeat now log d mi s = (t, NOW) -> now <= t + Hour.
Proof.
  rewrite nextHourRepeat_eq. cbv zeta.
  destruct (between _ _ _ && negb _) eqn:E.
  - intros H. inversion H; subst. apply andb_prop in E. destruct E as [E _].
    apply between_clamped in E; [exact E | discriminate].
  - destruct (After _ _); discriminate.
Qed.

Lemma nextDayRepeat_NOW now log d h mi s t :
  nextDayRepeat now log d h mi s = (t, NOW) -> now <= t + Hour * 24.
Proof.
  rewrite nextDayRepeat_eq. cbv zeta.
  destruct (between _ _ _ && negb _) eqn:E.
  - intros H. inversion H; subst. apply andb_prop in E. destruct E as [E _].
    apply between_clamped in E; [exact E | discriminate].
  - destruct (After _ _); discriminate.
Qed.

Lemma nextWeekRepeat_NOW fuel now log d w h mi s t :
  nextWeekRepeat fuel now log d w h mi s = Ok (t, NOW) ->
  now <= t + Hour * 24 * 7.
Proof.
  rewrite nextWeekRepeat_eq. intros H.
  apply bind_Ok in H. destruct H as [t0 [_ H]]. cbv zeta in H.
  destruct (between _ _ _ && negb _) eqn:E.
  - inversion H; subst. apply andb_prop in E. destruct E as [E _].
    apply between_clamped in E; [exact E | discriminate].
  - destruct (After _ _); [|discriminate].
    apply bind_Ok in H. destruct H as [t1 [_ H]]. discriminate.
Qed.

Lemma nextMonthRepeat_NOW fuel now log d day h mi s t :
  nextMonthRepeat fuel now log d day h mi s = Ok (t, NOW) ->
  now <= t + Hour * 24 * 30.
Proof.
  rewrite nextMonthRepeat_eq. intros H.
  apply bind_Ok in H. destruct H as [t0 [_ H]]. cbv zeta in H.
  destruct (between _ _ _ && negb _) eqn:E.
  - inversion H; subst. apply andb_prop in E. destruct E as [E _].
    apply between_clamped in E; [exact E | discriminate].
  - destruct (After _ _); [|discriminate].
    apply bind_Ok in H. destruct H as [t1 [_ H]]. discriminate.
Qed.

Lemma parseSpecs_every_hour_2h now :
  parseSpecs now (specsOf "every hour ~2h") zeroVars
  = Ok (mkVars 0 0 0 0 0 0 true true false false false Sunday (2 * Hour)).
Proof. vm_compute. reflexivity. Qed.

Lemma parseSpecs_every_hour_1h now :
  parseSpecs now (specsOf "every hour ~1h") zeroVars
  = Ok (mkVars 0 0 0 0 0 0 true true false false false Sunday Hour).
Proof. vm_compute. reflexivity. Qed.

(** Claim C3.  Each projector clamps its duration to the period of its
    cadence: it behaves on a duration [d] as on the smaller of [d] and one
    hour, 24 hours, 7 days or 30 days, and when it returns [NOW] for the
    occurrence [t] then [now] is at most that period after [t].  An hourly
    line written with [~2h] resolves as the same line written with [~1h],
    that is, with a window of one hour. *)
Theorem C3_duration_clamped_to_period :
  (forall now log d mi s,
      nextHourRepeat now log d mi s
      = nextHourRepeat now log (Z.min d Hour) mi s) /\
  (forall now log d h mi s,
      nextDayRepeat now log d h mi s
      = nextDayRepeat now log (Z.min d (Hour * 24)) h mi s) /\
  (forall fuel now log d w h mi s,
      nextWeekRepeat fuel now log d w h mi s
      = nextWeekRepeat fuel now log (Z.min d (Hour * 24 * 7)) w h mi s) /\
  (forall fuel now log d day h mi s,
      nextMonthRepeat fuel now log d day h mi s
      = nextMonthRepeat fuel now log (Z.min d (Hour * 24 * 30)) day h mi s) /\
  (forall now log d mi s t,
      nextHourRepeat now log d mi s = (t, NOW) -> now <= t + Hour) /\
  (forall now log d h mi s t,
      nextDayRepeat now log d h mi s = (t, NOW) -> now <= t + Hour * 24) /\
  (forall fuel now log d w h mi s t,
      nextWeekRepeat fuel now log d w h mi s = Ok (t, NOW) ->
      now <= t + Hour * 24 * 7) /\
  (forall fuel now log d day h mi s t,
      nextMonthRepeat fuel now log d day h mi s = Ok (t, NOW) ->
      now <= t + Hour * 24 * 30) /\
  (forall fuel now log,
      parsePlan fuel now log "every hour ~2h"
      = parsePlan fuel now log "every hour ~1h" /\
      parsePlan fuel now log "every hour ~2h"
      = Ok (planOf "every hour ~2h" (nextHourRepeat now log Hour 0 0))).
Proof.
  split; [exact nextHourRepeat_clamped|].
  split; [exact nextDayRepeat_clamped|].
  split; [exact nextWeekRepeat_clamped|].
  split; [exact nextMonthRepeat_clamped|].
  split; [exact nextHourRepeat_NOW|].
  split; [exact nextDayRepeat_NOW|].
  split; [exact nextWeekRepeat_NOW|].
  split; [exact nextMonthRepeat_NOW|].
  intros fuel now log. unfold parsePlan.
  rewrite parseSpecs_every_hour_2h, parseSpecs_every_hour_1h.
  cbn [bind resolve isRepeat isHourRepeat negb duration minute second].
  rewrite (nextHourRepeat_clamped now log (2 * Hour)).
  replace (Z.min (2 * Hour) Hour) with Hour by reflexivity.
  split; reflexivity.
Qed.

(** The theorem on four projections that return [NOW] although the line
    asks for a window longer than the period. *)
Lemma C3_witness :
  Date 2024 1 1 10 59 0 <= Date 2024 1 1 10 0 0 + Hour /\
  Date 2024 1 1 23 0 0 <= Date 2024 1 1 9 0 0 + Hour * 24 /\
  Date 2024 1 1 23 0 0 <= Date 2024 1 1 9 0 0 + Hour * 24 * 7 /\
  Date 2024 1 20 9 0 0 <= Date 2024 1 1 9 0 0 + Hour * 24 * 30.
Proof.
  destruct C3_duration_clamped_to_period
    as (_ & _ & _ & _ & Hh & Hd & Hw & Hm & _).
  split.
  { apply (Hh (Date 2024 1 1 10 59 0) [] (2 * Hour) 0 0).
    vm_compute. reflexivity. }
  split.
  { apply (Hd (Date 2024 1 1 23 0 0) [] (48 * Hour) 9 0 0).
    vm_compute. reflexivity. }
  split.
  { apply (Hw 6%nat (Date 2024 1 1 23 0 0) [] (240 * Hour) Monday 9 0 0).
    vm_compute. reflexivity. }
  apply (Hm 60%nat (Date 2024 1 20 9 0 0) [] (960 * Hour) 1 9 0 0).
  vm_compute. reflexivity.
Defined.

End Windows.


(* ===================================================================== *)
(** * Resolution of a schedule line *)
(* ===================================================================== *)

Section Resolution.
Import GoTime.

Lemma parseSpecs_every_0th now :
  parseSpecs now (specsOf "every 0th") zeroVars
  = Ok (mkVars 0 0 0 0 0 0 true false false false true Sunday 0).
Proof. vm_compute. reflexivity. Qed.

(** Claim C4, evaluated on the code.  The line [every 0th] asks for day 0
    of the month: it matches the pattern of a day of the month and
    [parseDayOfMonth] stores 0.  No instant has day 0, so the first loop of
    [nextMonthRepeat] is still running however much fuel it is given: the
    resolution does not return, where the claim has a bounded search that
    fails. *)
Theorem C4_day_zero_search_never_ends :
  forall (fuel : nat) (now : Time) (log : list Time),
    parsePlan fuel now log "every 0th" = OutOfFuel.
Proof.
  intros fuel now log. unfold parsePlan.
  rewrite parseSpecs_every_0th. cbn [bind]. unfold resolve.
  cbn [isRepeat isHourRepeat isDayRepeat isWeekRepeat isMonthRepeat negb].
  rewrite nextMonthRepeat_never; [reflexivity|].
  cbn [day]. lia.
Qed.

(** A date token with a single dash is always an error: [Sscanf] stores at
    most two items for two verbs and the result is compared with 3. *)
Lemma parseDate_single_dash now spec v :
  GoStrings.Count spec "-" = 1 -> parseDate now spec v = Err "parse date".
Proof.
  intros H. unfold parseDate. rewrite H. cbn [Z.eqb Pos.eqb].
  destruct_Sscanf.
  pose proof (scanValues_length spec "-" 2) as Hlen.
  cbn [List.length] in Escan. rewrite Escan in Hlen. cbn [fst] in Hlen.
  replace (Z.of_nat (List.length vals) =? 3) with false
    by (symmetry; apply Z.eqb_neq; lia).
  reflexivity.
Qed.

Lemma SchedGo_parseDate_single_dash now spec v :
  GoStrings.Count spec "-" = 1 ->
  SchedGo.parseDate now spec v = Err "parse date".
Proof.
  intros H. unfold SchedGo.parseDate. rewrite H. cbn [Z.eqb Pos.eqb].
  destruct_Sscanf.
  pose proof (scanValues_length spec "-" 2) as Hlen.
  cbn [List.length] in Escan. rewrite Escan in Hlen. cbn [fst] in Hlen.
  replace (Z.of_nat (List.length vals) =? 3) with false
    by (symmetry; apply Z.eqb_neq; lia).
  reflexivity.
Qed.

(** The earlier variant stores a short year as it is written. *)
Lemma SchedGo_parseDate_short_year now :
  dateOf <$> SchedGo.parseDate now "24-06-01" zeroVars = Ok (24, 6, 1) /\
  dateOf <$> parseDate now "24-06-01" zeroVars = Ok (2024, 6, 1).
Proof. split; vm_compute; reflexivity. Qed.

(** Claim C7, evaluated on the code.  The line [06-01 08:00] has a date
    token of the form MM-DD.  Its resolution fails with [parse date], for
    every instant of evaluation, where the claim has it succeed with the
    current year; so does [parseDate] of the earlier variant. *)
Theorem C7_month_day_date_is_rejected :
  forall (fuel : nat) (now : Time) (log : list Time),
    GoRegexp.MatchString datePattern "06-01" = true /\
    GoStrings.Count "06-01" "-" = 1 /\
    parsePlan fuel now log "06-01 08:00" = Err "parse date" /\
    SchedGo.parseDate now "06-01" zeroVars = Err "parse date".
Proof.
  intros fuel now log. repeat split; vm_compute; reflexivity.
Qed.

Lemma nextWeekRepeat_cases fuel now log d w h mi s :
  (exists r, nextWeekRepeat fuel now log d w h mi s = Ok r) \/
  nextWeekRepeat fuel now log d w h mi s = OutOfFuel.
Proof.
  rewrite nextWeekRepeat_eq.
  destruct (advanceUntil_cases (weekStop w) fuel (dayAnchor now h mi s))
    as [[t ->] | ->]; cbn [bind]; [|auto].
  cbv zeta. destruct (between _ _ _ && negb _); [eauto|].
  destruct (After _ _); [|eauto].
  destruct (advanceUntil_cases (weekStop w) fuel (Add t (Hour * 24)))
    as [[t' ->] | ->]; cbn [bind]; eauto.
Qed.

Lemma nextMonthRepeat_cases fuel now log d day h mi s :
  (exists r, nextMonthRepeat fuel now log d day h mi s = Ok r) \/
  nextMonthRepeat fuel now log d day h mi s = OutOfFuel.
Proof.
  rewrite nextMonthRepeat_eq.
  destruct (advanceUntil_cases (monthStop day) fuel
              (monthAnchor now day h mi s))
    as [[t ->] | ->]; cbn [bind]; [|auto].
  cbv zeta. destruct (between _ _ _ && negb _); [eauto|].
  destruct (After _ _); [|eauto].
  destruct (advanceUntil_cases (monthStop day) fuel (Add t (Hour * 24)))
    as [[t' ->] | ->]; cbn [bind]; eauto.
Qed.

(** The only error of the part after the loops is [invalid time spec], and
    it is returned exactly in repeat mode without a cadence. *)
Lemma resolve_Err fuel now log v msg :
  resolve fuel now log v = Err msg <->
  msg = "invalid time spec" /\
  flagsOf v = (true, false, false, false, false).
Proof.
  unfold resolve, flagsOf.
  destruct (isRepeat v); cbn [negb];
    [|split; [discriminate | intros [_ H]; discriminate]].
  destruct (isHourRepeat v);
    [split; [discriminate | intros [_ H]; discriminate]|].
  destruct (isDayRepeat v);
    [split; [discriminate | intros [_ H]; discriminate]|].
  destruct (isWeekRepeat v).
  { split; [|intros [_ H]; discriminate].
    destruct (nextWeekRepeat_cases fuel now log (duration v) (dayOfWeek v)
                (hour v) (minute v) (second v)) as [[r ->] | ->];
      discriminate. }
  destruct (isMonthRepeat v).
  { split; [|intros [_ H]; discriminate].
    destruct (nextMonthRepeat_cases fuel now log (duration v) (day v)
                (hour v) (minute v) (second v)) as [[r ->] | ->];
      discriminate. }
  split.
  - intros H. inversion H. auto.
  - intros [-> _]. reflexivity.
Qed.

Lemma parsePlan_of_vars fuel now log input v :
  parseSpecs now (specsOf input) zeroVars = Ok v ->
  parsePlan fuel now log input
  = bind (resolve fuel now log v) (fun r => Ok (planOf input r)).
Proof. intros H. unfold parsePlan. rewrite H. reflexivity. Qed.

(** The line [08:00] has no [every] and no date token, and resolves
    without error to a plan at [time.Date(0, 0, 0, 8, 0, 0)]. *)
Lemma C5_counterexample :
  specsOf "08:00" = ["08:00"] /\
  GoRegexp.MatchString datePattern "08:00" = false /\
  parseSpecs (Date 2024 1 1 10 0 0) (specsOf "08:00") zeroVars
  = Ok (mkVars 0 0 0 8 0 0 false false false false false Sunday 0) /\
  parsePlan 0 (Date 2024 1 1 10 0 0) [] "08:00"
  = Ok (mkPlan (Date 0 0 0 8 0 0) "" EXPIRED) /\
  isErr (parsePlan 0 (Date 2024 1 1 10 0 0) [] "08:00") = false.
Proof. repeat split; vm_compute; reflexivity. Qed.

(** Claim C5, amended.  For a line whose tokens parse, the resolver
    returns the error [invalid time spec] exactly when [every] is one of
    the specs and no cadence is active.  A line without [every] is not
    rejected for want of a date token: it resolves to the plan of the
    date and clock fields as the loop left them, zero where no token set
    them. *)
Theorem C5_invalid_time_spec_needs_every :
  forall fuel now log input v,
    parseSpecs now (specsOf input) zeroVars = Ok v ->
    (parsePlan fuel now log input = Err "invalid time spec" <->
     In "every" (specsOf input) /\
     isHourRepeat v = false /\ isDayRepeat v = false /\
     isWeekRepeat v = false /\ isMonthRepeat v = false) /\
    (~ In "every" (specsOf input) ->
     let start :=
       Date (year v) (month v) (day v) (hour v) (minute v) (second v) in
     parsePlan fuel now log input
     = Ok (mkPlan start (commentOf input)
             (nonRepeatState now start (Add start (duration v))))).
Proof.
  intros fuel now log input v Hv.
  pose proof (parseSpecs_isRepeat_iff now (specsOf input) v Hv) as Hrep.
  rewrite (parsePlan_of_vars fuel now log input v Hv).
  split.
  - split.
    + intros H.
      destruct (resolve fuel now log v) as [r|msg| |] eqn:E;
        cbn [bind] in H; try discriminate.
      inversion H; subst.
      apply resolve_Err in E. destruct E as [_ E].
      unfold flagsOf in E. injection E; intros.
      repeat split; try assumption. apply Hrep. assumption.
    + intros (Hin & Hh & Hd & Hw & Hm).
      assert (E : resolve fuel now log v = Err "invalid time spec").
      { apply resolve_Err. split; [reflexivity|].
        unfold flagsOf. apply Hrep in Hin. congruence. }
      rewrite E. reflexivity.
  - intros Hnin start.
    assert (Hr : isRepeat v = false).
    { destruct (isRepeat v) eqn:E; [|reflexivity].
      exfalso. apply Hnin, Hrep. reflexivity. }
    unfold resolve. rewrite Hr. reflexivity.
Qed.

(** The theorem on [every 08:00], which is rejected, and on [08:00],
    which is not. *)
Lemma C5_witness :
  (parsePlan 0 (Date 2024 1 1 10 0 0) [] "every 08:00"
   = Err "invalid time spec" <->
   In "every" (specsOf "every 08:00") /\
   false = false /\ false = false /\ false = false /\ false = false) /\
  (~ In "every" (specsOf "08:00") ->
   parsePlan 0 (Date 2024 1 1 10 0 0) [] "08:00"
   = Ok (mkPlan (Date 0 0 0 8 0 0) (commentOf "08:00")
           (nonRepeatState (Date 2024 1 1 10 0 0) (Date 0 0 0 8 0 0)
              (Add (Date 0 0 0 8 0 0) 0)))).
Proof.
  split.
  - apply (C5_invalid_time_spec_needs_every 0%nat (Date 2024 1 1 10 0 0) []
             "every 08:00"
             (mkVars 0 0 0 0 0 0 true false false false false Sunday 0)).
    vm_compute. reflexivity.
  - apply (C5_invalid_time_spec_needs_every 0%nat (Date 2024 1 1 10 0 0) []
             "08:00"
             (mkVars 0 0 0 8 0 0 false false false false false Sunday 0)).
    vm_compute. reflexivity.
Defined.

(** The cadence flags are set by their tokens in repeat mode. *)
Lemma parseSpecs_hour_after_every now : forall specs v v',
  isRepeat v = true -> In "hour" specs ->
  parseSpecs now specs v = Ok v' -> isHourRepeat v' = true.
Proof.
  induction specs as [|s specs IH]; intros v v' Hr Hin H; simpl in *;
    [tauto|].
  apply bind_Ok in H. destruct H as [v1 [H1 H2]].
  pose proof (classify_flagsLe _ _ _ _ H1) as Hle.
  destruct Hin as [-> | Hin].
  - rewrite classify_hour in H1 by assumption. inversion H1; subst.
    apply parseSpecs_flagsLe in H2. apply H2. reflexivity.
  - apply (IH v1 v'); [apply Hle; assumption | assumption | assumption].
Qed.

Lemma parseSpecs_day_after_every now : forall specs v v',
  isRepeat v = true -> In "day" specs ->
  parseSpecs now specs v = Ok v' -> isDayRepeat v' = true.
Proof.
  induction specs as [|s specs IH]; intros v v' Hr Hin H; simpl in *;
    [tauto|].
  apply bind_Ok in H. destruct H as [v1 [H1 H2]].
  pose proof (classify_flagsLe _ _ _ _ H1) as Hle.
  destruct Hin as [-> | Hin].
  - rewrite classify_day in H1 by assumption. inversion H1; subst.
    apply parseSpecs_flagsLe in H2. apply H2. reflexivity.
  - apply (IH v1 v'); [apply Hle; assumption | assumption | assumption].
Qed.

Lemma parseSpecs_after_every now l1 l2 v :
  parseSpecs now (l1 ++ "every" :: l2) zeroVars = Ok v ->
  exists v1, isRepeat v1 = true /\ parseSpecs now l2 v1 = Ok v.
Proof.
  intros H. rewrite parseSpecs_app in H.
  apply bind_Ok in H. destruct H as [v0 [_ H]]. simpl in H.
  rewrite classify_every in H. cbn [bind] in H.
  exists (set_isRepeat true v0). split; [reflexivity | exact H].
Qed.

(** The line [every hour day] sets the hourly and the daily flag and
    resolves, without error, as an hourly repeat: at 10:30 the next
    occurrence is 11:00. *)
Lemma C6_counterexample :
  parseSpecs (Date 2024 1 1 10 30 0) (specsOf "every hour day") zeroVars
  = Ok (mkVars 0 0 0 0 0 0 true true true false false Sunday 0) /\
  parsePlan 0 (Date 2024 1 1 10 30 0) [] "every hour day"
  = Ok (mkPlan (Date 2024 1 1 11 0 0) "" WAIT) /\
  isErr (parsePlan 0 (Date 2024 1 1 10 30 0) [] "every hour day") = false.
Proof. repeat split; vm_compute; reflexivity. Qed.

(** Claim C6, amended.  A line whose tokens parse resolves along exactly
    one path: without repeat when [every] is absent; otherwise by the
    first cadence that is active in the fixed order hourly, daily, weekly,
    monthly; and with the error [invalid time spec] when none is.  Tokens
    that activate several cadences are therefore no error: a line with
    [hour] after [every] is resolved by the hourly projector whatever
    other cadence tokens it has, and one with [day] after [every] by the
    daily projector unless the hourly flag is set. *)
Theorem C6_cadence_chosen_by_precedence :
  forall fuel now log input v,
    parseSpecs now (specsOf input) zeroVars = Ok v ->
    (isRepeat v = false ->
     let start :=
       Date (year v) (month v) (day v) (hour v) (minute v) (second v) in
     parsePlan fuel now log input
     = Ok (planOf input
             (start, nonRepeatState now start (Add start (duration v)))))
    /\
    (isRepeat v = true ->
     (isHourRepeat v = true ->
      parsePlan fuel now log input
      = Ok (planOf input
              (nextHourRepeat now log (duration v) (minute v) (second v))))
     /\
     (isHourRepeat v = false -> isDayRepeat v = true ->
      parsePlan fuel now log input
      = Ok (planOf input
              (nextDayRepeat now log (duration v) (hour v) (minute v)
                 (second v))))
     /\
     (isHourRepeat v = false -> isDayRepeat v = false ->
      isWeekRepeat v = true ->
      parsePlan fuel now log input
      = planOf input <$>
        nextWeekRepeat fuel now log (duration v) (dayOfWeek v)
          (hour v) (minute v) (second v))
     /\
     (isHourRepeat v = false -> isDayRepeat v = false ->
      isWeekRepeat v = false -> isMonthRepeat v = true ->
      parsePlan fuel now log input
      = planOf input <$>
        nextMonthRepeat fuel now log (duration v) (day v)
          (hour v) (minute v) (second v))
     /\
     (isHourRepeat v = false -> isDayRepeat v = false ->
      isWeekRepeat v = false -> isMonthRepeat v = false ->
      parsePlan fuel now log input = Err "invalid time spec"))
    /\
    (forall l1 l2,
        specsOf input = (l1 ++ "every" :: l2)%list ->
        (In "hour" l2 ->
         parsePlan fuel now log input
         = Ok (planOf input
                 (nextHourRepeat now log (duration v) (minute v) (second v))))
        /\
        (In "day" l2 -> isHourRepeat v = false ->
         parsePlan fuel now log input
         = Ok (planOf input
                 (nextDayRepeat now log (duration v) (hour v) (minute v)
                    (second v))))).
Proof.
  intros fuel now log input v Hv.
  rewrite (parsePlan_of_vars fuel now log input v Hv).
  assert (Hflag :
    isRepeat v = true ->
    (isHourRepeat v = true ->
     resolve fuel now log v
     = Ok (nextHourRepeat now log (duration v) (minute v) (second v))) /\
    (isHourRepeat v = false -> isDayRepeat v = true ->
     resolve fuel now log v
     = Ok (nextDayRepeat now log (duration v) (hour v) (minute v) (second v)))
    /\
    (isHourRepeat v = false -> isDayRepeat v = false ->
     isWeekRepeat v = true ->
     resolve fuel now log v
     = nextWeekRepeat fuel now log (duration v) (dayOfWeek v)
         (hour v) (minute v) (second v)) /\
    (isHourRepeat v = false -> isDayRepeat v = false ->
     isWeekRepeat v = false -> isMonthRepeat v = true ->
     resolve fuel now log v
     = nextMonthRepeat fuel now log (duration v) (day v)
         (hour v) (minute v) (second v)) /\
    (isHourRepeat v = false -> isDayRepeat v = false ->
     isWeekRepeat v = false -> isMonthRepeat v = false ->
     resolve fuel now log v = Err "invalid time spec")).
  { intros Hr. unfold resolve. rewrite Hr. cbn [negb].
    repeat split; intros; repeat match goal with
                                 | H : _ = _ |- _ => rewrite H
                                 end; reflexivity. }
  split; [|split].
  - intros Hr start. unfold resolve. rewrite Hr. reflexivity.
  - intros Hr. destruct (Hflag Hr) as (Hh & Hd & Hw & Hm & Hnone).
    repeat split; intros.
    + rewrite Hh by assumption. reflexivity.
    + rewrite Hd by assumption. reflexivity.
    + rewrite Hw by assumption. reflexivity.
    + rewrite Hm by assumption. reflexivity.
    + rewrite Hnone by assumption. reflexivity.
  - intros l1 l2 Hspecs. rewrite Hspecs in Hv.
    destruct (parseSpecs_after_every now l1 l2 v Hv) as [v1 [Hr1 H2]].
    assert (Hr : isRepeat v = true).
    { apply parseSpecs_flagsLe in H2. apply H2. exact Hr1. }
    destruct (Hflag Hr) as (Hh & Hd & _).
    split.
    + intros Hin. rewrite Hh; [reflexivity|].
      exact (parseSpecs_hour_after_every now l2 v1 v Hr1 Hin H2).
    + intros Hin Hnh. rewrite Hd; [reflexivity | assumption |].
      exact (parseSpecs_day_after_every now l2 v1 v Hr1 Hin H2).
Qed.

(** The theorem on a line with [day] and [hour], resolved hourly, and on
    a line with [day] only. *)
Lemma C6_witness :
  parsePlan 0 (Date 2024 1 1 10 30 0) [] "every day ~1h hour"
  = Ok (planOf "every day ~1h hour"
          (nextHourRepeat (Date 2024 1 1 10 30 0) [] Hour 0 0)) /\
  parsePlan 0 (Date 2024 1 1 10 30 0) [] "every day 09:00"
  = Ok (planOf "every day 09:00"
          (nextDayRepeat (Date 2024 1 1 10 30 0) [] 0 9 0 0)).
Proof.
  split.
  - destruct (C6_cadence_chosen_by_precedence 0%nat (Date 2024 1 1 10 30 0)
                [] "every day ~1h hour"
                (mkVars 0 0 0 0 0 0 true true true false false Sunday Hour)
                ltac:(vm_compute; reflexivity)) as (_ & _ & Htok).
    destruct (Htok [] ["day"; "~1h"; "hour"] ltac:(vm_compute; reflexivity))
      as [Hh _].
    apply Hh. simpl. tauto.
  - destruct (C6_cadence_chosen_by_precedence 0%nat (Date 2024 1 1 10 30 0)
                [] "every day 09:00"
                (mkVars 0 0 0 9 0 0 true false true false false Sunday 0)
                ltac:(vm_compute; reflexivity)) as (_ & _ & Htok).
    destruct (Htok [] ["day"; "09:00"] ltac:(vm_compute; reflexivity))
      as [_ Hd].
    apply Hd; [simpl; tauto | reflexivity].
Defined.

End Resolution.


(* ===================================================================== *)
(** * Dates without repeat *)
(* ===================================================================== *)

Section Dates.

(** A date token with two dashes whose three numbers scan stores them,
    with 2000 added to a year below 1000. *)
Lemma parseDate_three_fields now spec v yv mv dv :
  GoStrings.Count spec "-" = 2 ->
  scanValues spec "-" 3 = ([yv; mv; dv], false) ->
  parseDate now spec v
  = Ok (set_year (if yv <? 1000 then yv + 2000 else yv)
          (set_day dv (set_month mv (set_year yv v)))).
Proof.
  intros Hc Hs. unfold parseDate. rewrite Hc. cbn [Z.eqb Pos.eqb].
  rewrite Sscanf_values. cbn [List.length]. rewrite Hs.
  cbn [fst snd List.length Z.of_nat Pos.of_succ_nat Pos.succ Z.eqb Pos.eqb
       negb orb storeAll].
  cbn [year set_day set_month set_year].
  destruct (yv <? 1000); reflexivity.
Qed.

(** Claim C8.  In a line without [every], let [spec] be the last token
    that matches the date pattern, with two dashes and the three numbers
    [yv], [mv], [dv], where [yv] is below 1000.  When the tokens parse, the
    plan starts at [time.Date(yv + 2000, mv, dv, ...)] with the clock
    fields of the line, and for a month, day and clock time in range the
    year of that instant is [yv + 2000]. *)
Theorem C8_short_year_plus_2000 :
  forall fuel now log input pre spec post yv mv dv v,
    specsOf input = (pre ++ spec :: post)%list ->
    ~ In "every" (specsOf input) ->
    (forall s, In s post -> GoRegexp.MatchString datePattern s = false) ->
    GoRegexp.MatchString datePattern spec = true ->
    GoStrings.Count spec "-" = 2 ->
    scanValues spec "-" 3 = ([yv; mv; dv], false) ->
    yv < 1000 ->
    parseSpecs now (specsOf input) zeroVars = Ok v ->
    exists p,
      parsePlan fuel now log input = Ok p /\
      Time p
      = GoTime.Date (yv + 2000) mv dv (hour v) (minute v) (second v) /\
      (validDate (yv + 2000) mv dv ->
       validClock (hour v) (minute v) (second v) ->
       GoTime.Time_Year (Time p) = yv + 2000 /\
       GoTime.Time_Month (Time p) = mv /\ GoTime.Time_Day (Time p) = dv).
Proof.
  intros fuel now log input pre spec post yv mv dv v
         Hspecs Hne Hpost Hm Hc Hs Hy Hv.
  assert (Hr : isRepeat v = false).
  { destruct (isRepeat v) eqn:E; [|reflexivity].
    exfalso. apply Hne. eapply parseSpecs_isRepeat_iff; eauto. }
  assert (Hdate : dateOf v = (yv + 2000, mv, dv)).
  { rewrite Hspecs in Hv, Hne. rewrite parseSpecs_app in Hv.
    apply bind_Ok in Hv. destruct Hv as [v1 [Hpre Hrest]].
    assert (Hr1 : isRepeat v1 = false).
    { apply parseSpecs_nonRepeat in Hpre; [|reflexivity|].
      - destruct Hpre as [Hf _]. apply flagsOf_eq in Hf.
        destruct Hf as [-> _]. reflexivity.
      - intros s Hin ->. apply Hne. apply in_or_app. left. exact Hin. }
    simpl in Hrest. apply bind_Ok in Hrest.
    destruct Hrest as [v2 [Hcl Hpost']].
    unfold classify in Hcl. rewrite Hr1, Hm in Hcl. cbn [negb andb] in Hcl.
    rewrite (parseDate_three_fields now spec v1 yv mv dv Hc Hs) in Hcl.
    apply Z.ltb_lt in Hy. rewrite Hy in Hcl. inversion Hcl; subst v2.
    apply parseSpecs_nonRepeat in Hpost'; [|exact Hr1|].
    - destruct Hpost' as [_ Hd]. rewrite (Hd Hpost). reflexivity.
    - intros s Hin ->. apply Hne. apply in_or_app. right. right. exact Hin. }
  unfold dateOf in Hdate. injection Hdate as Hyear Hmonth Hday.
  set (start :=
         GoTime.Date (yv + 2000) mv dv (hour v) (minute v) (second v)).
  exists (mkPlan start (commentOf input)
            (nonRepeatState now start (GoTime.Add start (duration v)))).
  split.
  { rewrite (parsePlan_of_vars fuel now log input v Hv).
    unfold resolve. rewrite Hr, Hyear, Hmonth, Hday. reflexivity. }
  split; [reflexivity|].
  intros Hvd Hvc. cbn [Time]. subst start.
  unfold GoTime.Time_Year, GoTime.Time_Month, GoTime.Time_Day.
  rewrite (Time_Date_Date _ _ _ _ _ _ Hvd Hvc). auto.
Qed.

(** The theorem on [24-06-01 08:30 ~1h #report]. *)
Lemma C8_witness :
  exists p,
    parsePlan 0 (GoTime.Date 2026 10 31 12 0 0) []
      "24-06-01 08:30 ~1h #report" = Ok p
    /\ Time p = GoTime.Date (24 + 2000) 6 1 8 30 0
    /\ (validDate (24 + 2000) 6 1 -> validClock 8 30 0 ->
        GoTime.Time_Year (Time p) = 24 + 2000 /\
        GoTime.Time_Month (Time p) = 6 /\ GoTime.Time_Day (Time p) = 1).
Proof.
  apply (C8_short_year_plus_2000 0%nat (GoTime.Date 2026 10 31 12 0 0) []
           "24-06-01 08:30 ~1h #report" [] "24-06-01" ["08:30"; "~1h"]
           24 6 1
           (mkVars 2024 6 1 8 30 0 false false false false false
              GoTime.Sunday GoTime.Hour)).
  - vm_compute. reflexivity.
  - vm_compute. intros [H | [H | [H | []]]]; discriminate.
  - intros s [<- | [<- | []]]; vm_compute; reflexivity.
  - vm_compute. reflexivity.
  - vm_compute. reflexivity.
  - vm_compute. reflexivity.
  - lia.
  - vm_compute. reflexivity.
Defined.

End Dates.

(* ===================================================================== *)
(** * The lines of a job file *)
(* ===================================================================== *)

Section JobFile.

Lemma parseLines_args fuel now : forall rest i self,
  parseLines fuel now i rest parsingArgs self
  = Ok (mkJob (Cmd self) (Args self ++ rest) (Path self) (Plans self)
          (Log self)).
Proof.
  induction rest as [|l rest IH]; intros i self; simpl.
  - rewrite app_nil_r. destruct self; reflexivity.
  - rewrite IH. unfold appendArg. simpl. rewrite <- app_assoc. reflexivity.
Qed.

Lemma parseLines_ands fuel now : forall ands plans i self rest,
  Forall (fun l => GoStrings.HasPrefix l "and " = true) ands ->
  Forall2 (fun l p =>
             parsePlan fuel now (Log self) (GoStrings.TrimPrefix l "and ")
             = Ok p) ands plans ->
  parseLines fuel now i (ands ++ rest) parsingPlan self
  = parseLines fuel now (i + Z.of_nat (List.length ands)) rest parsingPlan
      (mkJob (Cmd self) (Args self) (Path self) (Plans self ++ plans)
         (Log self)).
Proof.
  induction ands as [|l ands IH]; intros plans i self rest Hand Hplans.
  - inversion Hplans; subst. simpl. rewrite app_nil_r, Z.add_0_r.
    destruct self; reflexivity.
  - inversion Hand as [|? ? Hl Hands]; subst.
    inversion Hplans as [|? p ? plans' Hp Hps]; subst.
    simpl app. cbn [parseLines]. rewrite Hl, orb_true_r, Hp.
    rewrite (IH plans' (i + 1) (appendPlan self p) rest Hands Hps).
    unfold appendPlan. cbn [Cmd Args Path Plans Log].
    rewrite <- app_assoc. cbn [app List.length].
    f_equal. lia.
Qed.

(** Claim C9.  Let the kept lines of a job file be a first line, then
    lines that start with [and ], then a line that does not, then any
    further lines.  When each of the first line and the [and] lines, with
    its prefix [and ] removed, parses to a plan, [Parse] returns the job
    with exactly these plans in order, one for each such line, the next
    line as its command, and each further line as one argument.  Without
    a line for the command the job has the plans only. *)
Theorem C9_lines_to_plans_command_args :
  forall fuel now fileLines self first ands plans,
    Forall (fun l => GoStrings.HasPrefix l "and " = true) ands ->
    Forall2 (fun l p =>
               parsePlan fuel now (Log self) (GoStrings.TrimPrefix l "and ")
               = Ok p) (first :: ands) plans ->
    (forall cmd args,
        filter keepLine fileLines = (first :: ands ++ cmd :: args)%list ->
        GoStrings.HasPrefix cmd "and " = false ->
        Parse fuel now fileLines self
        = Ok (mkJob cmd (Args self ++ args) (Path self)
                (Plans self ++ plans) (Log self))) /\
    (filter keepLine fileLines = (first :: ands)%list ->
     Parse fuel now fileLines self
     = Ok (mkJob (Cmd self) (Args self) (Path self) (Plans self ++ plans)
             (Log self))) /\
    List.length plans = S (List.length ands).
Proof.
  intros fuel now fileLines self first ands plans Hand Hplans.
  inversion Hplans as [|? p ? plans' Hp Hps]; subst.
  assert (Hfirst : forall rest,
    parseLines fuel now 0 (first :: ands ++ rest) parsingPlan self
    = parseLines fuel now (0 + 1 + Z.of_nat (List.length ands)) rest
        parsingPlan
        (mkJob (Cmd self) (Args self) (Path self)
           (Plans self ++ p :: plans') (Log self))).
  { intros rest. cbn [parseLines]. cbn [Z.eqb orb]. rewrite Hp.
    rewrite (parseLines_ands fuel now ands plans' (0 + 1)
               (appendPlan self p) rest Hand Hps).
    unfold appendPlan. cbn [Cmd Args Path Plans Log].
    rewrite <- app_assoc. reflexivity. }
  split; [|split].
  - intros cmd args Hlines Hcmd. unfold Parse. rewrite Hlines, Hfirst.
    cbn [parseLines].
    replace (0 + 1 + Z.of_nat (List.length ands) =? 0) with false
      by (symmetry; apply Z.eqb_neq; lia).
    rewrite Hcmd. cbn [orb]. rewrite parseLines_args. reflexivity.
  - intros Hlines. unfold Parse. rewrite Hlines.
    rewrite <- (app_nil_r ands), Hfirst. reflexivity.
  - apply Forall2_length in Hps. simpl. congruence.
Qed.

(** The theorem on two chained lines, a command and two arguments, with
    a comment line and an empty line that the reading loop drops. *)
Lemma C9_witness :
  Parse 0 (GoTime.Date 2024 6 1 12 0 0)
    ["# backup"; "2024-06-01 08:00"; ""; "and 2024-06-02 08:00"; "echo";
     "hello world"; "and more"]
    (newJob "backup" [])
  = Ok (mkJob "echo" ["hello world"; "and more"] "backup"
          [mkPlan (GoTime.Date 2024 6 1 8 0 0) "" EXPIRED;
           mkPlan (GoTime.Date 2024 6 2 8 0 0) "" WAIT]
          []).
Proof.
  destruct (C9_lines_to_plans_command_args 0%nat (GoTime.Date 2024 6 1 12 0 0)
              ["# backup"; "2024-06-01 08:00"; ""; "and 2024-06-02 08:00";
               "echo"; "hello world"; "and more"]
              (newJob "backup" [])
              "2024-06-01 08:00" ["and 2024-06-02 08:00"]
              [mkPlan (GoTime.Date 2024 6 1 8 0 0) "" EXPIRED;
               mkPlan (GoTime.Date 2024 6 2 8 0 0) "" WAIT])
    as [Hcmd _].
  - repeat constructor.
  - repeat constructor; vm_compute; reflexivity.
  - apply (Hcmd "echo" ["hello world"; "and more"]); reflexivity.
Defined.

End JobFile.

(* ===================================================================== *)
(** * Scenarios *)
(* ===================================================================== *)

Section Scenarios.
Import GoTime.

(** The calendar model on dates whose values are known. *)
Example Date_epoch : Date 1970 1 1 0 0 0 = 0.
Proof. reflexivity. Qed.

Example Date_2024 : unixSeconds (Date 2024 1 1 0 0 0) = 1704067200.
Proof. reflexivity. Qed.

Example Weekday_2024_01_01 : Time_Weekday (Date 2024 1 1 9 0 0) = Monday.
Proof. reflexivity. Qed.

Example Date_normalises :
  Time_Date (Date 2023 2 31 12 0 0) = (2023, 3, 3) /\
  Time_Date (Date 2024 2 31 12 0 0) = (2024, 3, 2) /\
  Time_Date (Date 2024 6 0 12 0 0) = (2024, 5, 31) /\
  Time_Date (Date 2024 13 1 25 0 0) = (2025, 1, 2).
Proof. repeat split; reflexivity. Qed.

(** [2024-01-01 08:00 ~2h] is due at 09:00 and expired at 11:00. *)
Example scenario_window :
  forall fuel log,
    State <$> parsePlan fuel (Date 2024 1 1 9 0 0) log "2024-01-01 08:00 ~2h"
    = Ok NOW /\
    State <$> parsePlan fuel (Date 2024 1 1 11 0 0) log "2024-01-01 08:00 ~2h"
    = Ok EXPIRED.
Proof. intros fuel log. split; vm_compute; reflexivity. Qed.

(** [every mon 09:00 ~1h #weekly backup], resolved on a Tuesday, waits for
    the next Monday at 09:00. *)
Example scenario_weekly :
  parsePlan 6 (Date 2024 1 2 10 0 0) [] "every mon 09:00 ~1h #weekly backup"
  = Ok (mkPlan (Date 2024 1 8 9 0 0) "weekly backup" WAIT) /\
  Time_Weekday (Date 2024 1 2 10 0 0) = Tuesday /\
  Time_Weekday (Date 2024 1 8 9 0 0) = Monday.
Proof. repeat split; vm_compute; reflexivity. Qed.

(** Day 31 asked for in February is found in March. *)
Example scenario_day_31_in_February :
  parsePlan 60 (Date 2024 2 10 10 0 0) [] "every 31st 10:00"
  = Ok (mkPlan (Date 2024 3 31 10 0 0) "" WAIT).
Proof. vm_compute. reflexivity. Qed.

(** A pattern is searched for, not matched against the whole token:
    [month] holds [mon] and is read as Monday. *)
Example scenario_month_token :
  GoRegexp.MatchString dayOfWeekPattern "month" = true /\
  dayOfWeek <$> parseSpecs 0 ["every"; "month"] zeroVars = Ok Monday.
Proof. split; vm_compute; reflexivity. Qed.

End Scenarios.
